(** * combine.py: merging published statistics files into per-group aggregates

    A shallow embedding of [mt_stats/tools/combine.py].  The script is a
    single top-level loop; every statement becomes an action of a small
    state-and-exception monad over the interpreter's global namespace and
    the file system, so that name resolution, exception propagation and the
    order of file-system effects are those of the script as it is written. *)

From Stdlib Require Import Ascii.
From stdpp Require Import gmap strings list pretty.

Open Scope string_scope.

(** ** Strings *)

(** [c in s] for a one-character [c]. *)
Fixpoint has_char (c : ascii) (s : string) : bool :=
  match s with
  | EmptyString => false
  | String a s' => if Ascii.eqb a c then true else has_char c s'
  end.

(** The split point of [s.rsplit(sep, 1)]: the text before and after the
    last occurrence of [sep], when there is one. *)
Fixpoint rsplit_once (sep : ascii) (s : string) : option (string * string) :=
  match s with
  | EmptyString => None
  | String a s' =>
      match rsplit_once sep s' with
      | Some (h, t) => Some (String a h, t)
      | None => if Ascii.eqb a sep then Some (EmptyString, s') else None
      end
  end.

(** [s.rsplit(sep, 1)]. *)
Definition rsplit1 (sep : ascii) (s : string) : list string :=
  match rsplit_once sep s with
  | Some (h, t) => [h; t]
  | None => [s]
  end.

(** [s.split(sep)]: all the [sep]-delimited segments of [s]. *)
Fixpoint split_on (sep : ascii) (s : string) : list string :=
  match s with
  | EmptyString => [EmptyString]
  | String a s' =>
      if Ascii.eqb a sep then EmptyString :: split_on sep s'
      else match split_on sep s' with
           | seg :: segs => String a seg :: segs
           | [] => [String a EmptyString]
           end
  end.

(** ** Exceptions *)

Inductive exn : Type :=
| NameError (name : string)
| TypeError (what : string)
| ValueError (token : string)
| IndexError
| StopIteration
| IOError (path : string)
| OSError (path : string).

(** [l[i]] on a list. *)
Definition py_index {A : Type} (l : list A) (i : nat) : exn + A :=
  match l !! i with
  | Some x => inr x
  | None => inl IndexError
  end.

(** Line 9: [filename.rsplit('_', 1)[0]]. *)
Definition group_key (filename : string) : exn + string :=
  py_index (rsplit1 "_" filename) 0.

(** ** The library functions the script calls

    [int], [float], float comparison, [repr] of a float and the row
    splitting of [csv.reader] belong to the Python runtime, not to the
    script; the model takes them as an interface. *)

Class PyLib : Type := {
  pyfloat : Type;
  (** [int(x)]; [None] stands for [ValueError]. *)
  int_of_str : string -> option Z;
  (** [float(x)]; [None] stands for [ValueError]. *)
  float_of_str : string -> option pyfloat;
  (** [x < y] on floats. *)
  float_lt : pyfloat -> pyfloat -> bool;
  (** [repr(x)], the text [csv.writer] emits for a float. *)
  float_repr : pyfloat -> string;
  (** The rows a [csv.reader] yields for the given [skipinitialspace]
      flag, delimiter and file contents. *)
  csv_rows : bool -> ascii -> string -> list (list string)
}.

(** ** File system *)

Inductive node : Type :=
| Dir (entries : list string)
| File (data : string).

(** File-system effects, in the order they happen. *)
Inductive event : Type :=
| EvRemove (path : string)
| EvTruncate (path : string)
| EvAppend (path line : string).

Definition remove_entry (name : string) (n : node) : node :=
  match n with
  | Dir es => Dir (filter (fun e => e <> name) es)
  | File d => File d
  end.

Definition add_entry (name : string) (n : node) : node :=
  match n with
  | Dir es => if bool_decide (name ∈ es) then Dir es else Dir (es ++ [name])
  | File d => File d
  end.

(** Removing the file at [path]: the node goes, and so does its entry in
    the directory that holds it. *)
Definition unlink (path : string) (m : gmap string node) : gmap string node :=
  match rsplit_once "/" path with
  | Some (dir, name) => alter (remove_entry name) dir (delete path m)
  | None => delete path m
  end.

(** Creating or truncating the file at [path]. *)
Definition create (path : string) (m : gmap string node) : gmap string node :=
  match rsplit_once "/" path with
  | Some (dir, name) => <[path := File ""]> (alter (add_entry name) dir m)
  | None => <[path := File ""]> m
  end.

Definition is_dir (n : option node) : bool :=
  match n with
  | Some (Dir _) => true
  | _ => false
  end.

(** Whether [open(path, 'wb')] can succeed: the name is not empty and does
    not denote a directory, and the directory that is to hold it exists. *)
Definition writable (path : string) (m : gmap string node) : bool :=
  negb (is_dir (m !! path)) &&
  match rsplit_once "/" path with
  | Some (dir, name) => is_dir (m !! dir) && negb (String.eqb name "")
  | None => negb (String.eqb path "")
  end.

(** [csv.writer] with the default dialect: fields joined by the delimiter,
    the row closed by CR LF.  (Numerals never need quoting.) *)
Definition crlf : string := String "013" (String "010" EmptyString).

Definition csv_line (delim : ascii) (fields : list string) : string :=
  String.concat (String delim EmptyString) fields +:+ crlf.

(** The contents of a file made of the given comma-separated rows. *)
Definition file_of_rows (rows : list (list string)) : string :=
  String.concat "" (csv_line "," <$> rows).

(** The keyword arguments [csv.reader] and [csv.writer] accept. *)
Definition dialect_keywords : list string :=
  ["dialect"; "delimiter"; "doublequote"; "escapechar"; "lineterminator";
   "quotechar"; "quoting"; "skipinitialspace"; "strict"].

(** The names bound in Python 2.7's [__builtin__] module. *)
Definition builtin_names : list string :=
  ["ArithmeticError"; "AssertionError"; "AttributeError"; "BaseException";
   "BufferError"; "BytesWarning"; "DeprecationWarning"; "EOFError";
   "Ellipsis"; "EnvironmentError"; "Exception"; "False";
   "FloatingPointError"; "FutureWarning"; "GeneratorExit"; "IOError";
   "ImportError"; "ImportWarning"; "IndentationError"; "IndexError";
   "KeyError"; "KeyboardInterrupt"; "LookupError"; "MemoryError";
   "NameError"; "None"; "NotImplemented"; "NotImplementedError"; "OSError";
   "OverflowError"; "PendingDeprecationWarning"; "ReferenceError";
   "RuntimeError"; "RuntimeWarning"; "StandardError"; "StopIteration";
   "SyntaxError"; "SyntaxWarning"; "SystemError"; "SystemExit"; "TabError";
   "True"; "TypeError"; "UnboundLocalError"; "UnicodeDecodeError";
   "UnicodeEncodeError"; "UnicodeError"; "UnicodeTranslateError";
   "UnicodeWarning"; "UserWarning"; "ValueError"; "Warning";
   "ZeroDivisionError"; "__debug__"; "__doc__"; "__import__"; "__name__";
   "__package__"; "abs"; "all"; "any"; "apply"; "basestring"; "bin"; "bool";
   "buffer"; "bytearray"; "bytes"; "callable"; "chr"; "classmethod"; "cmp";
   "coerce"; "compile"; "complex"; "copyright"; "credits"; "delattr";
   "dict"; "dir"; "divmod"; "enumerate"; "eval"; "execfile"; "exit"; "file";
   "filter"; "float"; "format"; "frozenset"; "getattr"; "globals";
   "hasattr"; "hash"; "help"; "hex"; "id"; "input"; "int"; "intern";
   "isinstance"; "issubclass"; "iter"; "len"; "license"; "list"; "locals";
   "long"; "map"; "max"; "memoryview"; "min"; "next"; "object"; "oct";
   "open"; "ord"; "pow"; "print"; "property"; "quit"; "range"; "raw_input";
   "reduce"; "reload"; "repr"; "reversed"; "round"; "set"; "setattr";
   "slice"; "sorted"; "staticmethod"; "str"; "sum"; "super"; "tuple";
   "type"; "unichr"; "unicode"; "vars"; "xrange"; "zip"].

(** The builtin exception classes an exception is an instance of. *)
Definition exn_classes (e : exn) : list string :=
  match e with
  | NameError _ => ["NameError"; "StandardError"; "Exception"; "BaseException"]
  | TypeError _ => ["TypeError"; "StandardError"; "Exception"; "BaseException"]
  | ValueError _ => ["ValueError"; "StandardError"; "Exception"; "BaseException"]
  | IndexError =>
      ["IndexError"; "LookupError"; "StandardError"; "Exception"; "BaseException"]
  | StopIteration => ["StopIteration"; "Exception"; "BaseException"]
  | IOError _ =>
      ["IOError"; "EnvironmentError"; "StandardError"; "Exception"; "BaseException"]
  | OSError _ =>
      ["OSError"; "EnvironmentError"; "StandardError"; "Exception"; "BaseException"]
  end.

(** ** Interpreter state and the monad of statements *)

Section Script.
Context `{L : PyLib}.

(** The values the script's names are bound to. *)
Inductive value : Type :=
| VBool (b : bool)
| VInt (n : nat)
| VStr (s : string)
| VInts (l : list Z)
| VFloats (l : list pyfloat)
| VBuiltin (name : string)
| VFileR (path data : string)
| VFileW (path : string)
| VReader (rows : list (list string))
| VWriter (path : string) (delim : ascii).

Record state : Type := State {
  globals : gmap string value;
  fs : gmap string node;
  trace : list event
}.

(** A statement either raises or returns, and leaves a state either way. *)
Definition M (A : Type) : Type := state -> (exn + A) * state.

#[global] Instance M_ret : MRet M := fun A x st => (inr x, st).

#[global] Instance M_bind : MBind M := fun A B f m st =>
  match m st with
  | (inl e, st') => (inl e, st')
  | (inr x, st') => f x st'
  end.

Definition raise {A : Type} (e : exn) : M A := fun st => (inl e, st).

Definition lift {A : Type} (r : exn + A) : M A := fun st => (r, st).

(** Reading a name: the module's globals first, then the builtins.  The
    script never rebinds the modules it imports nor the builtin functions
    it calls ([open], [int], [float], [next], [range], [len], [list]);
    their calls are modelled directly.  Every other name goes through
    [load] and [store]. *)
Definition load (name : string) : M value := fun st =>
  match globals st !! name with
  | Some v => (inr v, st)
  | None =>
      if bool_decide (name ∈ builtin_names) then (inr (VBuiltin name), st)
      else (inl (NameError name), st)
  end.

Definition store (name : string) (v : value) : M unit := fun st =>
  (inr tt, State (<[name := v]> (globals st)) (fs st) (trace st)).

Definition load_str (name : string) : M string :=
  v ← load name;
  match v with VStr s => mret s | _ => raise (TypeError name) end.

Definition load_nat (name : string) : M nat :=
  v ← load name;
  match v with VInt n => mret n | _ => raise (TypeError name) end.

Definition load_ints (name : string) : M (list Z) :=
  v ← load name;
  match v with VInts l => mret l | _ => raise (TypeError name) end.

Definition load_floats (name : string) : M (list pyfloat) :=
  v ← load name;
  match v with VFloats l => mret l | _ => raise (TypeError name) end.

(** [len(v)]. *)
Definition py_len (v : value) : M nat :=
  match v with
  | VStr s => mret (String.length s)
  | VInts l => mret (length l)
  | VFloats l => mret (length l)
  | _ => raise (TypeError "len")
  end.

(** [try: body / except cls: handler].  The expression after [except] is
    evaluated only once [body] has raised, and evaluating it can itself
    raise. *)
Definition try_except (body : M unit) (cls : string) (handler : M unit) : M unit :=
  fun st =>
    match body st with
    | (inr tt, st') => (inr tt, st')
    | (inl e, st') =>
        match load cls st' with
        | (inl e', st'') => (inl e', st'')
        | (inr (VBuiltin c), st'') =>
            if bool_decide (c ∈ exn_classes e) then handler st''
            else (inl e, st'')
        | (inr _, st'') => (inl e, st'')
        end
    end.

(** [for x in xs: body]. *)
Fixpoint for_each {A : Type} (xs : list A) (body : A -> M unit) : M unit :=
  match xs with
  | [] => mret tt
  | x :: xs' => body x;; for_each xs' body
  end.

(** [[f(x) for x in xs]].  (The comprehension variable is read by nothing
    else in the script and is not kept.) *)
Fixpoint comprehension {A B : Type} (f : A -> M B) (xs : list A) : M (list B) :=
  match xs with
  | [] => mret []
  | x :: xs' => y ← f x; ys ← comprehension f xs'; mret (y :: ys)
  end.

Definition py_int (x : string) : M Z :=
  match int_of_str x with
  | Some n => mret n
  | None => raise (ValueError x)
  end.

Definition py_float (x : string) : M pyfloat :=
  match float_of_str x with
  | Some r => mret r
  | None => raise (ValueError x)
  end.

(** *** File system calls *)

(** [os.listdir(path)]. *)
Definition os_listdir (path : string) : M (list string) := fun st =>
  match fs st !! path with
  | Some (Dir es) => (inr es, st)
  | _ => (inl (OSError path), st)
  end.

(** [os.remove(path)]. *)
Definition os_remove (path : string) : M unit := fun st =>
  match fs st !! path with
  | Some (File _) =>
      (inr tt,
       State (globals st) (unlink path (fs st)) (trace st ++ [EvRemove path]))
  | _ => (inl (OSError path), st)
  end.

(** [open(path, 'rb')]. *)
Definition open_rb (path : string) : M value := fun st =>
  match fs st !! path with
  | Some (File d) => (inr (VFileR path d), st)
  | _ => (inl (IOError path), st)
  end.

(** [open(path, 'wb')]: the file is created, or emptied, at once. *)
Definition open_wb (path : string) : M value := fun st =>
  if writable path (fs st) then
    (inr (VFileW path),
     State (globals st) (create path (fs st)) (trace st ++ [EvTruncate path]))
  else (inl (IOError path), st).

(** The first keyword that is not a dialect parameter. *)
Definition bad_keyword (kwargs : list (string * value)) : option string :=
  fst <$> List.find (fun kw => negb (bool_decide (kw.1 ∈ dialect_keywords))) kwargs.

Definition kw_lookup (name : string) (kwargs : list (string * value)) : option value :=
  snd <$> List.find (fun kw => String.eqb kw.1 name) kwargs.

Definition kw_delimiter (kwargs : list (string * value)) : M ascii :=
  match kw_lookup "delimiter" kwargs with
  | None => mret ","%char
  | Some (VStr (String c EmptyString)) => mret c
  | Some _ => raise (TypeError "delimiter")
  end.

Definition kw_skipinitialspace (kwargs : list (string * value)) : bool :=
  match kw_lookup "skipinitialspace" kwargs with
  | Some (VBool b) => b
  | _ => false
  end.

(** [csv.reader(f, **kwargs)]. *)
Definition csv_reader (f : value) (kwargs : list (string * value)) : M value :=
  match bad_keyword kwargs with
  | Some kw => raise (TypeError kw)
  | None =>
      delim ← kw_delimiter kwargs;
      match f with
      | VFileR _ data =>
          mret (VReader (csv_rows (kw_skipinitialspace kwargs) delim data))
      | _ => raise (TypeError "reader")
      end
  end.

(** [next(reader)], for the reader bound to [name]. *)
Definition next_row (name : string) : M (list string) :=
  v ← load name;
  match v with
  | VReader (row :: rows) => store name (VReader rows);; mret row
  | VReader [] => raise StopIteration
  | _ => raise (TypeError "next")
  end.

(** [csv.writer(f, **kwargs)]. *)
Definition csv_writer (f : value) (kwargs : list (string * value)) : M value :=
  match bad_keyword kwargs with
  | Some kw => raise (TypeError kw)
  | None =>
      delim ← kw_delimiter kwargs;
      match f with
      | VFileW path => mret (VWriter path delim)
      | _ => raise (TypeError "writer")
      end
  end.

(** [w.writerow(fields)]. *)
Definition writerow (w : value) (fields : list string) : M unit :=
  match w with
  | VWriter path delim => fun st =>
      match fs st !! path with
      | Some (File d) =>
          (inr tt,
           State (globals st)
                 (<[path := File (d +:+ csv_line delim fields)]> (fs st))
                 (trace st ++ [EvAppend path (csv_line delim fields)]))
      | _ => (inl (IOError path), st)
      end
  | _ => raise (TypeError "writerow")
  end.

(** *** Sorting *)

(** [list.sort] on floats compares with [<] only and is stable; on lists
    that [<] orders totally its result is the one of this insertion sort.
    (With a NaN among the elements [<] is not total and the result depends
    on the merge strategy of the runtime; that case is outside the model.) *)
Fixpoint insert_sorted (x : pyfloat) (l : list pyfloat) : list pyfloat :=
  match l with
  | [] => [x]
  | y :: l' => if float_lt x y then x :: y :: l' else y :: insert_sorted x l'
  end.

Definition list_sort (l : list pyfloat) : list pyfloat :=
  foldl (fun acc x => insert_sorted x acc) [] l.

(** ** The script, statement by statement *)

(** Line 4: [directory = '../published']. *)
Definition assign_directory : M unit :=
  store "directory" (VStr "../published").

(** Line 9: [group = filename.rsplit('_', 1)[0]]. *)
Definition derive_group : M unit :=
  filename ← load_str "filename";
  group ← lift (group_key filename);
  store "group" (VStr group).

(** Lines 13-17, the body of the [try]. *)
Definition read_aggregate_body : M unit :=
  group ← load_str "group";
  csvfile ← open_rb ("../aggregate/" +:+ group);
  store "csvfile" csvfile;;
  f ← load "csvfile";
  reader ← csv_reader f [("skipiInitialspace", VBool true); ("delimiter", VStr ",")];
  store "reader" reader;;
  row ← next_row "reader";
  ints ← comprehension py_int row;
  store "aggregateTimeProfiles" (VInts ints);;
  row ← next_row "reader";
  floats ← comprehension py_float row;
  store "aggregateTotalCounts" (VFloats floats);;
  row ← next_row "reader";
  floats ← comprehension py_float row;
  store "aggregateTimeStdevs" (VFloats floats).

(** Lines 19-21, the handler. *)
Definition empty_aggregate : M unit :=
  store "aggregateTimeProfiles" (VInts []);;
  store "aggregateTotalCounts" (VFloats []);;
  store "aggregateTimeStdevs" (VFloats []).

(** Lines 12-21: [try: ... except IOERROR: ...]. *)
Definition read_aggregate : M unit :=
  try_except read_aggregate_body "IOERROR" empty_aggregate.

(** Lines 26-28: the three rows of the published file. *)
Definition parse_published : M unit :=
  row ← next_row "reader";
  ints ← comprehension py_int row;
  store "timeProfiles" (VInts ints);;
  row ← next_row "reader";
  floats ← comprehension py_float row;
  store "totalCounts" (VFloats floats);;
  row ← next_row "reader";
  floats ← comprehension py_float row;
  store "timeStdevs" (VFloats floats).

(** Lines 24-28. *)
Definition read_published : M unit :=
  directory ← load_str "directory";
  filename ← load_str "filename";
  csvfile ← open_rb (directory +:+ "/" +:+ filename);
  store "csvfile" csvfile;;
  f ← load "csvfile";
  reader ← csv_reader f [("skipInitialspace", VBool true); ("delimiter", VStr ",")];
  store "reader" reader;;
  parse_published.

(** Line 32: [aggregateTimeProfiles[i] += timeProfiles[i]]. *)
Definition add_bucket : M unit :=
  agg ← load_ints "aggregateTimeProfiles";
  i ← load_nat "i";
  x ← lift (py_index agg i);
  new ← load_ints "timeProfiles";
  i' ← load_nat "i";
  y ← lift (py_index new i');
  store "aggregateTimeProfiles" (VInts (<[i := (x + y)%Z]> agg)).

(** Lines 31-33. *)
Definition merge_profiles : M unit :=
  a ← load "aggegateTimeProfiles";
  n ← py_len a;
  for_each (seq 0 n) (fun i => store "i" (VInt i);; add_bucket);;
  agg ← load_ints "aggregateTimeProfiles";
  new ← load_ints "timeProfiles";
  a ← load "aggegateTimeProfiles";
  n ← py_len a;
  store "aggregateTimeProfiles" (VInts (agg ++ drop n new)).

(** Lines 34-38. *)
Definition concat_and_sort : M unit :=
  agg ← load_floats "aggregateTotalCounts";
  new ← load_floats "totalCounts";
  store "aggregateTotalCounts" (VFloats (agg ++ new));;
  agg ← load_floats "aggregateTimeStdevs";
  new ← load_floats "timeStdevs";
  store "aggregateTimeStdevs" (VFloats (agg ++ new));;
  counts ← load_floats "aggregateTotalCounts";
  store "aggregateTotalCounts" (VFloats (list_sort counts));;
  stdevs ← load_floats "aggregateTimeStdevs";
  store "aggregateTimeStdevs" (VFloats (list_sort stdevs)).

(** Line 41: [os.remove(directory + '/' + filename)]. *)
Definition delete_published : M unit :=
  directory ← load_str "directory";
  filename ← load_str "filename";
  os_remove (directory +:+ "/" +:+ filename).

(** Lines 44-48. *)
Definition write_aggregate : M unit :=
  group ← load_str "group";
  csvfile ← open_wb ("../aggregate/" +:+ group);
  store "csvfile" csvfile;;
  f ← load "csvfile";
  writer ← csv_writer f [("delimiter", VStr ",")];
  store "writer" writer;;
  w ← load "writer";
  profiles ← load_ints "aggregateTimeProfiles";
  writerow w (pretty <$> profiles);;
  w ← load "writer";
  counts ← load_floats "aggregateTotalCounts";
  writerow w (float_repr <$> counts);;
  w ← load "writer";
  stdevs ← load_floats "aggregateTimeStdevs";
  writerow w (float_repr <$> stdevs).

(** Lines 40-48: what the loop does once the merged lists are computed. *)
Definition delete_then_write : M unit :=
  delete_published;; write_aggregate.

(** Lines 26-48: what an iteration still has to do once the reader of the
    published file is there.  Nothing in it catches an exception. *)
Definition lines_26_to_48 : M unit :=
  parse_published;;
  merge_profiles;;
  concat_and_sort;;
  delete_then_write.

(** Lines 9-48, the body of the loop. *)
Definition loop_body : M unit :=
  derive_group;;
  read_aggregate;;
  read_published;;
  merge_profiles;;
  concat_and_sort;;
  delete_then_write.

(** The whole script. *)
Definition script : M unit :=
  assign_directory;;
  directory ← load_str "directory";
  names ← os_listdir directory;
  for_each names (fun filename => store "filename" (VStr filename);; loop_body).

(** One pass of the loop, for the entry [filename] of the listing. *)
Definition iteration (filename : string) : M unit :=
  store "filename" (VStr filename);; loop_body.

(** A run from a fresh interpreter on the file system [m]. *)
Definition run (m : gmap string node) : (exn + unit) * state :=
  script (State ∅ m []).

End Script.

(** ** A reference instance of the library interface

    Numbers as exact finite decimals, rows split at line ends and at the
    delimiter.  It is what the runtime computes on the plain decimal
    numerals of the scenarios below. *)

Module Decimal.

Record t : Type := Dec { mantissa : Z; places : nat }.

Definition digit_of (c : ascii) : option Z :=
  let n := Z.of_N (N_of_ascii c) in
  if ((48 <=? n) && (n <=? 57))%Z then Some (n - 48)%Z else None.

Fixpoint digits_value (acc : Z) (s : string) : option Z :=
  match s with
  | EmptyString => Some acc
  | String c s' =>
      match digit_of c with
      | Some d => digits_value (10 * acc + d)%Z s'
      | None => None
      end
  end.

Definition unsigned_of_str (s : string) : option Z :=
  match s with
  | EmptyString => None
  | _ => digits_value 0 s
  end.

Definition signed {A : Type} (parse : string -> option A) (neg : A -> A)
    (s : string) : option A :=
  match s with
  | String "-" s' => neg <$> parse s'
  | String "+" s' => parse s'
  | _ => parse s
  end.

Definition int_of_str : string -> option Z := signed unsigned_of_str Z.opp.

(** Trailing zeros of the fraction carry no information. *)
Fixpoint normalise (k : nat) (m : Z) : t :=
  match k with
  | O => Dec m 0
  | S k' => if (m mod 10 =? 0)%Z then normalise k' (m / 10)%Z else Dec m k
  end.

Definition unsigned_dec_of_str (s : string) : option t :=
  match rsplit_once "." s with
  | None => (fun m => Dec m 0) <$> unsigned_of_str s
  | Some (ip, fp) =>
      if String.eqb ip "" && String.eqb fp "" then None
      else
        i ← digits_value 0 ip;
        f ← digits_value 0 fp;
        Some (normalise (String.length fp) (i * 10 ^ Z.of_nat (String.length fp) + f)%Z)
  end.

Definition opp (x : t) : t := Dec (- mantissa x) (places x).

Definition of_str : string -> option t := signed unsigned_dec_of_str opp.

Definition lt (x y : t) : bool :=
  (mantissa x * 10 ^ Z.of_nat (places y) <? mantissa y * 10 ^ Z.of_nat (places x))%Z.

Fixpoint zeros (n : nat) : string :=
  match n with
  | O => EmptyString
  | S n' => String "0" (zeros n')
  end.

Definition repr (x : t) : string :=
  let m := Z.abs (mantissa x) in
  let scale := (10 ^ Z.of_nat (places x))%Z in
  let frac := pretty (m mod scale)%Z in
  (if (mantissa x <? 0)%Z then "-" else "") +:+ pretty (m / scale)%Z +:+ "." +:+
  match places x with
  | O => "0"
  | S _ => zeros (places x - String.length frac) +:+ frac
  end.

Fixpoint lstrip (s : string) : string :=
  match s with
  | String " " s' => lstrip s'
  | _ => s
  end.

Fixpoint strip_cr (s : string) : string :=
  match s with
  | EmptyString => EmptyString
  | String "013" EmptyString => EmptyString
  | String c s' => String c (strip_cr s')
  end.

Definition lines (data : string) : list string :=
  let ls := split_on "010" data in
  strip_cr <$> (if String.eqb (List.last ls "") "" then removelast ls else ls).

Definition rows (skipinitialspace : bool) (delim : ascii) (data : string)
    : list (list string) :=
  (fun line =>
     match line with
     | EmptyString => []
     | _ => (if skipinitialspace then lstrip else id) <$> split_on delim line
     end) <$> lines data.

End Decimal.

#[export] Instance decimal_lib : PyLib := {|
  pyfloat := Decimal.t;
  int_of_str := Decimal.int_of_str;
  float_of_str := Decimal.of_str;
  float_lt := Decimal.lt;
  float_repr := Decimal.repr;
  csv_rows := Decimal.rows
|}.

(** ** Scenarios *)

Definition nl : string := String "010" EmptyString.

Definition three_rows (r1 r2 r3 : string) : string :=
  r1 +:+ nl +:+ r2 +:+ nl +:+ r3 +:+ nl.

(** The first scenario: [portA_001] is published and [portA] has no
    aggregate yet. *)
Definition fs_first_publish : gmap string node :=
  <["../published" := Dir ["portA_001"]]>
  (<["../published/portA_001" := File (three_rows "1,2,3" "0.5,0.2" "0.1,0.3")]>
  (<["../aggregate" := Dir []]> ∅)).

(** The second scenario: [portA_002] is published and [portA] already has
    an aggregate. *)
Definition fs_second_publish : gmap string node :=
  <["../published" := Dir ["portA_002"]]>
  (<["../published/portA_002" := File (three_rows "4,5" "0.9" "0.05")]>
  (<["../aggregate" := Dir ["portA"]]>
  (<["../aggregate/portA" := File (three_rows "1,2,3" "0.2,0.5" "0.1,0.3")]> ∅))).

(** Two files of one group, listed in the given order; no aggregate yet. *)
Definition fs_two_files (listing : list string) : gmap string node :=
  <["../published" := Dir listing]>
  (<["../published/portA_001" := File (three_rows "1,2,3" "0.5,0.2" "0.1,0.3")]>
  (<["../published/portA_002" := File (three_rows "4,5" "0.9" "0.05")]>
  (<["../aggregate" := Dir []]> ∅))).

(** A file with a token that is not a number, listed before a good one. *)
Definition fs_malformed_first : gmap string node :=
  <["../published" := Dir ["portA_001"; "portB_001"]]>
  (<["../published/portA_001" := File (three_rows "1,x,3" "0.5,0.2" "0.1,0.3")]>
  (<["../published/portB_001" := File (three_rows "4,5" "0.9" "0.05")]>
  (<["../aggregate" := Dir []]> ∅))).

(** A published file with [data] as its contents, no aggregate. *)
Definition fs_with_contents (data : string) : gmap string node :=
  <["../published" := Dir ["portA_001"]]>
  (<["../published/portA_001" := File data]>
  (<["../aggregate" := Dir []]> ∅)).

Definition two_rows : string := "1,2,3" +:+ nl +:+ "0.5,0.2" +:+ nl.

Definition four_rows : string := three_rows "1,2,3" "0.5,0.2" "0.1,0.3" +:+ "9,9,9" +:+ nl.

Definition dec (m : Z) (k : nat) : pyfloat := Decimal.Dec m k.

(** The names lines 4-28 are meant to bind by the time line 31 is reached,
    in the second scenario. *)
Definition globals_second_publish : gmap string value :=
  <["directory" := VStr "../published"]>
  (<["filename" := VStr "portA_002"]>
  (<["group" := VStr "portA"]>
  (<["aggregateTimeProfiles" := VInts [1; 2; 3]%Z]>
  (<["aggregateTotalCounts" := VFloats [dec 2 1; dec 5 1]]>
  (<["aggregateTimeStdevs" := VFloats [dec 1 1; dec 3 1]]>
  (<["timeProfiles" := VInts [4; 5]%Z]>
  (<["totalCounts" := VFloats [dec 9 1]]>
  (<["timeStdevs" := VFloats [dec 5 2]]> ∅)))))))).

Definition at_line_31 : state := State globals_second_publish fs_second_publish [].

(** The names bound once lines 31-38 have produced the merged lists of the
    second scenario. *)
Definition globals_merged : gmap string value :=
  <["aggregateTimeProfiles" := VInts [5; 7; 3]%Z]>
  (<["aggregateTotalCounts" := VFloats [dec 2 1; dec 5 1; dec 9 1]]>
  (<["aggregateTimeStdevs" := VFloats [dec 5 2; dec 1 1; dec 3 1]]>
   globals_second_publish)).

Definition at_line_40 : state := State globals_merged fs_second_publish [].

(** The names bound when line 24 is reached for [portA_001], had the
    handler of lines 19-21 run. *)
Definition globals_at_line_24 : gmap string value :=
  <["directory" := VStr "../published"]>
  (<["filename" := VStr "portA_001"]>
  (<["group" := VStr "portA"]>
  (<["aggregateTimeProfiles" := VInts []]>
  (<["aggregateTotalCounts" := VFloats []]>
  (<["aggregateTimeStdevs" := VFloats []]> ∅))))).

Definition at_line_24 (data : string) : state :=
  State globals_at_line_24 (fs_with_contents data) [].

(** Line 32 in the second scenario, at the third bucket. *)
Definition at_line_32 : state :=
  State (<["i" := VInt 2]> globals_second_publish) fs_second_publish [].

(** A published file whose name has no underscore, no aggregate yet. *)
Definition fs_plain_name : gmap string node :=
  <["../published" := Dir ["portA"]]>
  (<["../published/portA" := File (three_rows "1,2,3" "0.5,0.2" "0.1,0.3")]>
  (<["../aggregate" := Dir []]> ∅)).

(** Line 13 for that file, once line 9 has bound [group]. *)
Definition at_line_13_plain_name : state :=
  State (<["group" := VStr "portA"]>
         (<["filename" := VStr "portA"]>
          (<["directory" := VStr "../published"]> ∅)))
        fs_plain_name [].

(** Line 26 for [portA_001], with a reader over the rows of [data]. *)
Definition at_line_26 (m : gmap string node) (data : string) : state :=
  State (<["reader" := VReader (csv_rows true "," data)]>
         (<["csvfile" := VFileR "../published/portA_001" data]> globals_at_line_24))
        m [].

(** Three rows of numerals with three, one and four fields. *)
Definition uneven_rows : string := three_rows "1,2,3" "0.5" "0.1,0.3,0.7,0.9".

(** The second scenario without an aggregate directory. *)
Definition fs_no_aggregate_dir : gmap string node :=
  <["../published" := Dir ["portA_002"]]>
  (<["../published/portA_002" := File (three_rows "4,5" "0.9" "0.05")]> ∅).

(** Line 32 in the second scenario, at the second bucket. *)
Definition at_line_32_in_range : state :=
  State (<["i" := VInt 1]> globals_second_publish) fs_second_publish [].

(** ** Properties the claims are stated with *)

(** Some token of the three rows is not a numeral of its row's type:
    [int] for the first row, [float] for the other two. *)
Definition non_numeric_rows `{L : PyLib} (r1 r2 r3 : list string) : bool :=
  negb (forallb (fun x => bool_decide (is_Some (int_of_str x))) r1
        && forallb (fun x => bool_decide (is_Some (float_of_str x))) r2
        && forallb (fun x => bool_decide (is_Some (float_of_str x))) r3).

(** Some row is written to [agg] before [pub] is removed. *)
Definition written_before_deleted (tr : list event) (agg pub : string) : Prop :=
  exists i j line,
    tr !! i = Some (EvAppend agg line) /\ tr !! j = Some (EvRemove pub) /\ i < j.

(** The loop outlives a file whose rows do not parse: the [ValueError] of
    a token of that file is not what lines 26-48 and the passes for the
    files [rest] end with. *)
Definition survives_malformed_rows `{L : PyLib} (st : state) (rest : list string) : Prop :=
  forall tok,
    fst ((lines_26_to_48;; for_each rest iteration) st) <> inl (ValueError tok).

(** [l] is ascending for [<]: no element is smaller than an earlier one. *)
Fixpoint ascending `{L : PyLib} (l : list pyfloat) : Prop :=
  match l with
  | [] => True
  | x :: l' => Forall (fun y => float_lt y x = false) l' /\ ascending l'
  end.

(** [<] is a strict weak order on the elements of [l]: asymmetric,
    transitive, and with a transitive incomparability.  Floats are so
    ordered as long as none of them is a NaN. *)
Definition strict_weak_order_on `{L : PyLib} (l : list pyfloat) : Prop :=
  (forall a b, a ∈ l -> b ∈ l -> float_lt a b = true -> float_lt b a = false) /\
  (forall a b c, a ∈ l -> b ∈ l -> c ∈ l ->
     float_lt a b = true -> float_lt b c = true -> float_lt a c = true) /\
  (forall a b c, a ∈ l -> b ∈ l -> c ∈ l ->
     float_lt a b = false -> float_lt b c = false -> float_lt a c = false).

(** * Verification *)

(** ** Group keys (line 9) *)

Lemma rsplit_once_spec sep s h t :
  rsplit_once sep s = Some (h, t) ->
  s = h +:+ String sep t /\ has_char sep t = false.
Proof.
  revert h t. induction s as [|a s IH]; intros h t; simpl; [discriminate|].
  destruct (rsplit_once sep s) as [[h' t']|] eqn:E.
  - intros [= <- <-]. destruct (IH _ _ eq_refl) as [-> Ht]. by split.
  - destruct (Ascii.eqb_spec a sep) as [->|]; [|discriminate].
    intros [= <- <-]. split; [done|].
    clear IH. induction s as [|b s IH]; [done|]. simpl in *.
    destruct (rsplit_once sep s) as [[? ?]|]; [discriminate|].
    destruct (Ascii.eqb b sep); [discriminate|]. by apply IH.
Qed.

Lemma rsplit_once_none sep s :
  rsplit_once sep s = None <-> has_char sep s = false.
Proof.
  induction s as [|a s IH]; simpl; [done|].
  destruct (rsplit_once sep s) as [[? ?]|].
  - split; [discriminate|]. destruct (Ascii.eqb a sep); [discriminate|].
    intros H. by apply IH in H.
  - destruct (Ascii.eqb a sep); [split; discriminate|]. split; intros _; [by apply IH|done].
Qed.

Lemma split_on_nonempty sep s : split_on sep s <> [].
Proof.
  destruct s as [|a s]; simpl; [done|].
  destruct (Ascii.eqb a sep); [done|]. by destruct (split_on sep s).
Qed.

Lemma split_on_no_sep sep s : has_char sep s = false -> split_on sep s = [s].
Proof.
  induction s as [|a s IH]; simpl; [done|].
  destruct (Ascii.eqb a sep); [discriminate|]. intros H. by rewrite IH.
Qed.

Lemma split_on_app sep h t :
  split_on sep (h +:+ String sep t) = (split_on sep h ++ split_on sep t)%list.
Proof.
  induction h as [|a h IH]; simpl.
  - by rewrite Ascii.eqb_refl.
  - destruct (Ascii.eqb a sep); [by rewrite IH|].
    rewrite IH. destruct (split_on sep h) eqn:E; [|done].
    by apply split_on_nonempty in E.
Qed.

Lemma concat_split_on sep s :
  String.concat (String sep EmptyString) (split_on sep s) = s.
Proof.
  induction s as [|a s IH]; simpl; [done|].
  destruct (Ascii.eqb_spec a sep) as [->|].
  - simpl. destruct (split_on sep s) eqn:E; [by apply split_on_nonempty in E|].
    simpl in *. by rewrite IH.
  - destruct (split_on sep s) as [|seg segs] eqn:E; [by apply split_on_nonempty in E|].
    destruct segs; simpl in *; by rewrite <- IH.
Qed.

(** C7: for a published filename with an underscore, the group key is the
    filename with its last [_]-delimited segment removed: the remaining
    segments, joined by [_] again. *)
Theorem C7_group_key_drops_last_segment (filename : string) :
  has_char "_" filename = true ->
  group_key filename =
    inr (String.concat "_" (removelast (split_on "_" filename))).
Proof.
  intros Hc. unfold group_key, rsplit1.
  destruct (rsplit_once "_" filename) as [[h t]|] eqn:E.
  - apply rsplit_once_spec in E as [-> Ht]. simpl.
    rewrite split_on_app, (split_on_no_sep _ t Ht).
    rewrite removelast_last. by rewrite concat_split_on.
  - apply rsplit_once_none in E. congruence.
Qed.

(** [portA_001] belongs to group [portA]. *)
Lemma C7_witness_portA_001 : group_key "portA_001" = inr "portA".
Proof.
  exact (eq_trans (C7_group_key_drops_last_segment "portA_001" eq_refl) eq_refl).
Defined.

(** A filename without any underscore is its own group key. *)
Lemma group_key_of_plain_name (filename : string) :
  has_char "_" filename = false ->
  group_key filename = inr filename.
Proof.
  intros Hc. unfold group_key, rsplit1.
  apply rsplit_once_none in Hc. by rewrite Hc.
Qed.

(** ** The script *)

Section General.
Context `{L : PyLib}.

Lemma IOERROR_not_builtin : bool_decide ("IOERROR" ∈ builtin_names) = false.
Proof. by vm_compute. Qed.

Lemma aggegate_not_builtin :
  bool_decide ("aggegateTimeProfiles" ∈ builtin_names) = false.
Proof. by vm_compute. Qed.

Lemma group_key_total filename : exists g, group_key filename = inr g.
Proof.
  unfold group_key, rsplit1.
  destruct (rsplit_once "_" filename) as [[h t]|]; eauto.
Qed.

Lemma load_unbound name st :
  globals st !! name = None ->
  bool_decide (name ∈ builtin_names) = false ->
  load name st = (inl (NameError name), st).
Proof. intros Hg Hb. unfold load. by rewrite Hg, Hb. Qed.

Lemma load_bound name v st :
  globals st !! name = Some v -> load name st = (inr v, st).
Proof. intros Hg. unfold load. by rewrite Hg. Qed.

Lemma bind_raise {A B} (m : M A) (k : A -> M B) e st st' :
  m st = (inl e, st') -> (m ≫= k) st = (inl e, st').
Proof. intros H. unfold mbind, M_bind. by rewrite H. Qed.

Lemma bind_return {A B} (m : M A) (k : A -> M B) x st st' :
  m st = (inr x, st') -> (m ≫= k) st = k x st'.
Proof. intros H. unfold mbind, M_bind. by rewrite H. Qed.

Lemma load_str_bound name s st :
  globals st !! name = Some (VStr s) -> load_str name st = (inr s, st).
Proof. intros H. unfold load_str. by rewrite (bind_return _ _ _ _ _ (load_bound _ _ _ H)). Qed.


Lemma try_except_unbound body cls handler e st st' :
  body st = (inl e, st') ->
  globals st' !! cls = None ->
  bool_decide (cls ∈ builtin_names) = false ->
  try_except body cls handler st = (inl (NameError cls), st').
Proof.
  intros Hb Hg Hn. unfold try_except. rewrite Hb.
  by rewrite (load_unbound _ _ Hg Hn).
Qed.

Lemma try_except_caught body cls handler e st st' :
  body st = (inl e, st') ->
  globals st' !! cls = None ->
  cls ∈ builtin_names ->
  cls ∈ exn_classes e ->
  try_except body cls handler st = handler st'.
Proof.
  intros Hb Hg Hn Hc. unfold try_except, load. rewrite Hb, Hg.
  by rewrite !bool_decide_eq_true_2.
Qed.

(** Spelled [IOError], the clause of line 18 would catch what [open]
    raises for a missing aggregate and run the handler of lines 19-21. *)
Lemma handler_runs_for_IOError st g :
  globals st !! "group" = Some (VStr g) ->
  globals st !! "IOError" = None ->
  fs st !! ("../aggregate/" +:+ g) = None ->
  try_except read_aggregate_body "IOError" empty_aggregate st = empty_aggregate st.
Proof.
  intros Hg Hn Hf.
  apply (try_except_caught _ _ _ (IOError ("../aggregate/" +:+ g))); [|done|..].
  - unfold read_aggregate_body.
    rewrite (bind_return _ _ _ _ _ (load_str_bound _ _ _ Hg)).
    apply bind_raise. unfold open_rb. by rewrite Hf.
  - apply (bool_decide_unpack _). reflexivity.
  - apply (bool_decide_unpack _). reflexivity.
Qed.

Lemma read_aggregate_body_raises st g :
  globals st !! "group" = Some (VStr g) ->
  globals st !! "IOERROR" = None ->
  exists e st',
    read_aggregate_body st = (inl e, st') /\
    globals st' !! "IOERROR" = None /\
    fs st' = fs st /\ trace st' = trace st.
Proof.
  intros Hg Hn. unfold read_aggregate_body.
  rewrite (bind_return _ _ _ _ _ (load_str_bound _ _ _ Hg)).
  destruct (fs st !! ("../aggregate/" +:+ g)) as [[es|d]|] eqn:E.
  1,3: eexists _, st; split; [|done];
    apply bind_raise; unfold open_rb; by rewrite E.
  exists (TypeError "skipiInitialspace").
  eexists. split.
  - erewrite bind_return; [|unfold open_rb; by rewrite E].
    erewrite bind_return; [|reflexivity].
    erewrite bind_return; [|apply load_bound; simpl; apply lookup_insert_eq].
    apply bind_raise. reflexivity.
  - simpl. by rewrite lookup_insert_ne.
Qed.

Lemma read_aggregate_raises st g :
  globals st !! "group" = Some (VStr g) ->
  globals st !! "IOERROR" = None ->
  exists st',
    read_aggregate st = (inl (NameError "IOERROR"), st') /\
    fs st' = fs st /\ trace st' = trace st.
Proof.
  intros Hg Hn.
  destruct (read_aggregate_body_raises st g Hg Hn) as (e & st' & Hb & Hn' & Hfs & Htr).
  exists st'. split; [|done].
  by apply (try_except_unbound _ _ _ e).
Qed.


Lemma derive_group_returns st filename :
  globals st !! "filename" = Some (VStr filename) ->
  exists g,
    group_key filename = inr g /\
    derive_group st =
      (inr tt, State (<["group" := VStr g]> (globals st)) (fs st) (trace st)).
Proof.
  intros Hf. destruct (group_key_total filename) as [g Hgk].
  exists g. split; [done|]. unfold derive_group.
  rewrite (bind_return _ _ _ _ _ (load_str_bound _ _ _ Hf)).
  by rewrite Hgk.
Qed.

Lemma loop_body_raises st filename :
  globals st !! "filename" = Some (VStr filename) ->
  globals st !! "IOERROR" = None ->
  exists st',
    loop_body st = (inl (NameError "IOERROR"), st') /\
    fs st' = fs st /\ trace st' = trace st.
Proof.
  intros Hf Hn. unfold loop_body.
  destruct (derive_group_returns st filename Hf) as (g & _ & Hd).
  rewrite (bind_return _ _ _ _ _ Hd).
  set (st1 := State _ _ _).
  destruct (read_aggregate_raises st1 g) as (st' & Hr & Hfs & Htr).
  { simpl. apply lookup_insert_eq. }
  { simpl. by rewrite lookup_insert_ne. }
  exists st'. split; [|done]. by apply bind_raise.
Qed.

Lemma run_raises m filename rest :
  m !! "../published" = Some (Dir (filename :: rest)) ->
  exists st,
    run m = (inl (NameError "IOERROR"), st) /\ fs st = m /\ trace st = [].
Proof.
  intros Hd. unfold run, script, assign_directory.
  erewrite bind_return; [|reflexivity].
  erewrite bind_return; [|apply load_str_bound; simpl; apply lookup_insert_eq].
  erewrite bind_return; [|unfold os_listdir; simpl; by rewrite Hd].
  simpl for_each. set (st0 := State _ _ _).
  destruct (loop_body_raises
              (State (<["filename" := VStr filename]> (globals st0)) (fs st0) (trace st0))
              filename) as (st' & Hr & Hfs & Htr).
  { simpl. apply lookup_insert_eq. }
  { simpl. by rewrite !lookup_insert_ne. }
  exists st'. split; [|done]. apply bind_raise.
  erewrite bind_return; [|reflexivity]. exact Hr.
Qed.

Lemma run_nothing_published m :
  m !! "../published" = Some (Dir []) ->
  exists st, run m = (inr tt, st) /\ fs st = m /\ trace st = [].
Proof.
  intros Hd. unfold run, script, assign_directory.
  erewrite bind_return; [|reflexivity].
  erewrite bind_return; [|apply load_str_bound; simpl; apply lookup_insert_eq].
  erewrite bind_return; [|unfold os_listdir; simpl; by rewrite Hd].
  by eexists.
Qed.

(** *** Lines 24-28 *)

Lemma read_published_raises st d f :
  globals st !! "directory" = Some (VStr d) ->
  globals st !! "filename" = Some (VStr f) ->
  exists e st',
    read_published st = (inl e, st') /\
    (e = IOError (d +:+ "/" +:+ f) \/ e = TypeError "skipInitialspace") /\
    fs st' = fs st /\ trace st' = trace st.
Proof.
  intros Hd Hf. unfold read_published.
  rewrite (bind_return _ _ _ _ _ (load_str_bound _ _ _ Hd)).
  rewrite (bind_return _ _ _ _ _ (load_str_bound _ _ _ Hf)).
  destruct (fs st !! (d +:+ "/" +:+ f)) as [[es|data]|] eqn:E.
  1,3: exists (IOError (d +:+ "/" +:+ f)), st; split; [|by auto];
    apply bind_raise; unfold open_rb; by rewrite E.
  exists (TypeError "skipInitialspace"). eexists. split.
  - erewrite bind_return; [|unfold open_rb; by rewrite E].
    erewrite bind_return; [|reflexivity].
    erewrite bind_return; [|apply load_bound; simpl; apply lookup_insert_eq].
    apply bind_raise. reflexivity.
  - by auto.
Qed.

Lemma read_published_never_reads st d f data :
  globals st !! "directory" = Some (VStr d) ->
  globals st !! "filename" = Some (VStr f) ->
  fs st !! (d +:+ "/" +:+ f) = Some (File data) ->
  fst (read_published st) = inl (TypeError "skipInitialspace").
Proof.
  intros Hd Hf E. unfold read_published.
  rewrite (bind_return _ _ _ _ _ (load_str_bound _ _ _ Hd)).
  rewrite (bind_return _ _ _ _ _ (load_str_bound _ _ _ Hf)).
  erewrite bind_return; [|unfold open_rb; by rewrite E].
  erewrite bind_return; [|reflexivity].
  erewrite bind_return; [|apply load_bound; simpl; apply lookup_insert_eq].
  erewrite bind_raise; reflexivity.
Qed.

(** *** Lines 31-33 *)

Lemma merge_profiles_raises st :
  globals st !! "aggegateTimeProfiles" = None ->
  merge_profiles st = (inl (NameError "aggegateTimeProfiles"), st).
Proof.
  intros Hn. unfold merge_profiles. apply bind_raise.
  by apply load_unbound.
Qed.

(** *** Lines 34-38 *)

Lemma load_floats_bound name l st :
  globals st !! name = Some (VFloats l) -> load_floats name st = (inr l, st).
Proof. intros H. unfold load_floats. by rewrite (bind_return _ _ _ _ _ (load_bound _ _ _ H)). Qed.

Lemma load_ints_bound name l st :
  globals st !! name = Some (VInts l) -> load_ints name st = (inr l, st).
Proof. intros H. unfold load_ints. by rewrite (bind_return _ _ _ _ _ (load_bound _ _ _ H)). Qed.

Lemma concat_and_sort_returns st ac nc as_ ns :
  globals st !! "aggregateTotalCounts" = Some (VFloats ac) ->
  globals st !! "totalCounts" = Some (VFloats nc) ->
  globals st !! "aggregateTimeStdevs" = Some (VFloats as_) ->
  globals st !! "timeStdevs" = Some (VFloats ns) ->
  exists st',
    concat_and_sort st = (inr tt, st') /\
    globals st' !! "aggregateTotalCounts" = Some (VFloats (list_sort (ac ++ nc))) /\
    globals st' !! "aggregateTimeStdevs" = Some (VFloats (list_sort (as_ ++ ns))) /\
    fs st' = fs st /\ trace st' = trace st.
Proof.
  intros H1 H2 H3 H4. unfold concat_and_sort.
  rewrite (bind_return _ _ _ _ _ (load_floats_bound _ _ _ H1)).
  rewrite (bind_return _ _ _ _ _ (load_floats_bound _ _ _ H2)).
  erewrite bind_return; [|reflexivity].
  erewrite bind_return;
    [|apply load_floats_bound; simpl; rewrite lookup_insert_ne by done; exact H3].
  erewrite bind_return;
    [|apply load_floats_bound; simpl; rewrite lookup_insert_ne by done; exact H4].
  erewrite bind_return; [|reflexivity].
  erewrite bind_return;
    [|apply load_floats_bound; simpl; rewrite lookup_insert_ne by done;
      apply lookup_insert_eq].
  erewrite bind_return; [|reflexivity].
  erewrite bind_return;
    [|apply load_floats_bound; simpl; rewrite lookup_insert_ne by done;
      apply lookup_insert_eq].
  eexists. split; [reflexivity|]. simpl. split_and!; [|by rewrite lookup_insert_eq|done|done].
  rewrite lookup_insert_ne by done. by rewrite lookup_insert_eq.
Qed.

Lemma insert_sorted_perm x l : insert_sorted x l ≡ₚ x :: l.
Proof.
  induction l as [|y l IH]; simpl; [done|].
  destruct (float_lt x y); [done|]. rewrite IH. apply Permutation_swap.
Qed.

Lemma foldl_insert_sorted_perm l acc :
  foldl (fun a x => insert_sorted x a) acc l ≡ₚ (acc ++ l)%list.
Proof.
  revert acc. induction l as [|x l IH]; intros acc; simpl.
  - by rewrite app_nil_r.
  - rewrite IH, insert_sorted_perm. simpl. apply Permutation_middle.
Qed.

Lemma list_sort_perm l : list_sort l ≡ₚ l.
Proof. apply (foldl_insert_sorted_perm l []). Qed.

Lemma insert_sorted_ascending x l :
  (forall a b, float_lt a b = true -> float_lt b a = false) ->
  (forall a b c, float_lt a b = true -> float_lt b c = true -> float_lt a c = true) ->
  ascending l -> ascending (insert_sorted x l).
Proof.
  intros Has Htr. induction l as [|y l IH]; simpl; [by intros _; split|].
  intros [Hy Hl]. destruct (float_lt x y) eqn:E; simpl.
  - split; [|done]. constructor; [by apply Has|].
    eapply Forall_impl; [exact Hy|]. intros z Hz. simpl in Hz.
    destruct (float_lt z x) eqn:Ez; [|done].
    by rewrite (Htr _ _ _ Ez E) in Hz.
  - split; [|by apply IH].
    rewrite insert_sorted_perm. by constructor.
Qed.

Lemma list_sort_ascending l :
  (forall a b, float_lt a b = true -> float_lt b a = false) ->
  (forall a b c, float_lt a b = true -> float_lt b c = true -> float_lt a c = true) ->
  ascending (list_sort l).
Proof.
  intros Has Htr. unfold list_sort.
  assert (forall acc, ascending acc -> ascending (foldl (fun a x => insert_sorted x a) acc l)) as H.
  { induction l as [|x l IH]; intros acc Ha; simpl; [done|].
    apply IH. by apply insert_sorted_ascending. }
  by apply H.
Qed.

(** *** Lines 40-48 *)

Lemma rsplit_once_no_sep sep h t :
  has_char sep t = false ->
  rsplit_once sep (h +:+ String sep t) = Some (h, t).
Proof.
  intros Ht. apply rsplit_once_none in Ht.
  induction h as [|a h IH]; simpl.
  - by rewrite Ht, Ascii.eqb_refl.
  - by rewrite IH.
Qed.

Lemma length_append s1 s2 :
  String.length (s1 +:+ s2) = String.length s1 + String.length s2.
Proof.
  induction s1 as [|a s1 IH]; [done|].
  change (S (String.length (s1 +:+ s2)) = S (String.length s1 + String.length s2)).
  by rewrite IH.
Qed.

Lemma append_assoc s1 s2 s3 : (s1 +:+ s2) +:+ s3 = s1 +:+ (s2 +:+ s3).
Proof.
  induction s1 as [|a s1 IH]; [done|].
  change (String a ((s1 +:+ s2) +:+ s3) = String a (s1 +:+ (s2 +:+ s3))).
  by rewrite IH.
Qed.

Lemma rsplit_once_shorter sep s h t :
  rsplit_once sep s = Some (h, t) -> h <> s.
Proof.
  intros H%rsplit_once_spec. destruct H as [-> _]. intros Heq.
  apply (f_equal String.length) in Heq.
  rewrite length_append in Heq. simpl in Heq. lia.
Qed.

Lemma is_dir_remove_entry name o : is_dir (remove_entry name <$> o) = is_dir o.
Proof. by destruct o as [[?|?]|]. Qed.

Lemma is_dir_add_entry name o : is_dir (add_entry name <$> o) = is_dir o.
Proof. destruct o as [[es|?]|]; simpl; [|done|done]. by case_bool_decide. Qed.

Lemma unlink_lookup_self path m : unlink path m !! path = None.
Proof.
  unfold unlink. destruct (rsplit_once "/" path) as [[dir name]|] eqn:E.
  - rewrite lookup_alter_ne by (by apply rsplit_once_shorter in E).
    apply lookup_delete_eq.
  - apply lookup_delete_eq.
Qed.

Lemma unlink_is_dir path data m q :
  m !! path = Some (File data) ->
  is_dir (unlink path m !! q) = is_dir (m !! q).
Proof.
  intros Hp. unfold unlink.
  assert (is_dir (delete path m !! q) = is_dir (m !! q)) as Hd.
  { rewrite lookup_delete. case_decide; [subst; by rewrite Hp|done]. }
  destruct (rsplit_once "/" path) as [[dir name]|]; [|done].
  rewrite lookup_alter. case_decide; [subst|done].
  by rewrite is_dir_remove_entry.
Qed.

Lemma writable_unlink path data m q :
  m !! path = Some (File data) ->
  writable q (unlink path m) = writable q m.
Proof.
  intros Hp. unfold writable. rewrite (unlink_is_dir _ _ _ _ Hp).
  destruct (rsplit_once "/" q) as [[dir name]|]; [|done].
  by rewrite (unlink_is_dir _ _ _ _ Hp).
Qed.

Lemma create_lookup_self path m : create path m !! path = Some (File "").
Proof.
  unfold create. destruct (rsplit_once "/" path) as [[dir name]|];
    apply lookup_insert_eq.
Qed.

Lemma delete_published_returns st d f data :
  globals st !! "directory" = Some (VStr d) ->
  globals st !! "filename" = Some (VStr f) ->
  fs st !! (d +:+ "/" +:+ f) = Some (File data) ->
  delete_published st =
    (inr tt,
     State (globals st) (unlink (d +:+ "/" +:+ f) (fs st))
           (trace st ++ [EvRemove (d +:+ "/" +:+ f)])).
Proof.
  intros Hd Hf E. unfold delete_published.
  rewrite (bind_return _ _ _ _ _ (load_str_bound _ _ _ Hd)).
  rewrite (bind_return _ _ _ _ _ (load_str_bound _ _ _ Hf)).
  unfold os_remove. by rewrite E.
Qed.

(** The file that lines 44-48 write out. *)
Lemma write_aggregate_returns st g profiles counts stdevs :
  globals st !! "group" = Some (VStr g) ->
  globals st !! "aggregateTimeProfiles" = Some (VInts profiles) ->
  globals st !! "aggregateTotalCounts" = Some (VFloats counts) ->
  globals st !! "aggregateTimeStdevs" = Some (VFloats stdevs) ->
  writable ("../aggregate/" +:+ g) (fs st) = true ->
  exists st',
    write_aggregate st = (inr tt, st') /\
    fs st' !! ("../aggregate/" +:+ g) =
      Some (File (csv_line "," (pretty <$> profiles) +:+
                  csv_line "," (float_repr <$> counts) +:+
                  csv_line "," (float_repr <$> stdevs))) /\
    trace st' =
      (trace st ++
       [EvTruncate ("../aggregate/" +:+ g);
        EvAppend ("../aggregate/" +:+ g) (csv_line "," (pretty <$> profiles));
        EvAppend ("../aggregate/" +:+ g) (csv_line "," (float_repr <$> counts));
        EvAppend ("../aggregate/" +:+ g) (csv_line "," (float_repr <$> stdevs))])%list.
Proof.
  intros Hg Hp Hc Hs Hw. unfold write_aggregate.
  rewrite (bind_return _ _ _ _ _ (load_str_bound _ _ _ Hg)).
  erewrite bind_return; [|unfold open_wb; by rewrite Hw].
  erewrite bind_return; [|reflexivity].
  erewrite bind_return; [|apply load_bound; simpl; apply lookup_insert_eq].
  erewrite bind_return; [|reflexivity].
  erewrite bind_return; [|reflexivity].
  erewrite bind_return; [|apply load_bound; simpl; apply lookup_insert_eq].
  erewrite bind_return;
    [|apply load_ints_bound; simpl; rewrite !lookup_insert_ne by done; exact Hp].
  erewrite bind_return;
    [|unfold writerow; simpl; by rewrite create_lookup_self].
  erewrite bind_return; [|apply load_bound; simpl; apply lookup_insert_eq].
  erewrite bind_return;
    [|apply load_floats_bound; simpl; rewrite !lookup_insert_ne by done; exact Hc].
  erewrite bind_return;
    [|unfold writerow; simpl; by rewrite lookup_insert_eq].
  erewrite bind_return; [|apply load_bound; simpl; apply lookup_insert_eq].
  erewrite bind_return;
    [|apply load_floats_bound; simpl; rewrite !lookup_insert_ne by done; exact Hs].
  unfold writerow. simpl. rewrite lookup_insert_eq.
  eexists. split; [reflexivity|]. simpl. split.
  - rewrite lookup_insert_eq. do 2 f_equal.
    change ("" +:+ csv_line "," (pretty <$> profiles))
      with (csv_line "," (pretty <$> profiles)).
    apply append_assoc.
  - by rewrite <- !app_assoc.
Qed.

(** C8: the file lines 44-48 leave at the aggregate path consists of
    exactly three comma-separated rows of numerals, the time profiles, the
    total counts and the time deviations in this order, whatever the file
    held before. *)
Theorem C8_aggregate_file_has_three_rows st g profiles counts stdevs :
  globals st !! "group" = Some (VStr g) ->
  globals st !! "aggregateTimeProfiles" = Some (VInts profiles) ->
  globals st !! "aggregateTotalCounts" = Some (VFloats counts) ->
  globals st !! "aggregateTimeStdevs" = Some (VFloats stdevs) ->
  writable ("../aggregate/" +:+ g) (fs st) = true ->
  exists st',
    write_aggregate st = (inr tt, st') /\
    fs st' !! ("../aggregate/" +:+ g) =
      Some (File (file_of_rows [pretty <$> profiles;
                                float_repr <$> counts;
                                float_repr <$> stdevs])).
Proof.
  intros Hg Hp Hc Hs Hw.
  destruct (write_aggregate_returns st g profiles counts stdevs Hg Hp Hc Hs Hw)
    as (st' & Hr & Hf & _).
  exists st'. by split.
Qed.

(** C3, as the script has it: the published file is removed first, and
    only then is the aggregate opened (which empties it) and written row by
    row.  After the removal the published file is gone while the aggregate
    still is what it was. *)
Theorem C3_deleted_before_written st f g data profiles counts stdevs :
  globals st !! "directory" = Some (VStr "../published") ->
  globals st !! "filename" = Some (VStr f) ->
  globals st !! "group" = Some (VStr g) ->
  globals st !! "aggregateTimeProfiles" = Some (VInts profiles) ->
  globals st !! "aggregateTotalCounts" = Some (VFloats counts) ->
  globals st !! "aggregateTimeStdevs" = Some (VFloats stdevs) ->
  has_char "/" f = false ->
  fs st !! ("../published/" +:+ f) = Some (File data) ->
  writable ("../aggregate/" +:+ g) (fs st) = true ->
  exists st1 st2,
    delete_published st = (inr tt, st1) /\
    fs st1 !! ("../published/" +:+ f) = None /\
    fs st1 !! ("../aggregate/" +:+ g) = fs st !! ("../aggregate/" +:+ g) /\
    write_aggregate st1 = (inr tt, st2) /\
    delete_then_write st = (inr tt, st2) /\
    trace st2 =
      (trace st ++
       [EvRemove ("../published/" +:+ f);
        EvTruncate ("../aggregate/" +:+ g);
        EvAppend ("../aggregate/" +:+ g) (csv_line "," (pretty <$> profiles));
        EvAppend ("../aggregate/" +:+ g) (csv_line "," (float_repr <$> counts));
        EvAppend ("../aggregate/" +:+ g) (csv_line "," (float_repr <$> stdevs))])%list.
Proof.
  intros Hd Hf Hg Hp Hc Hs Hsl Hpub Hw.
  pose proof (delete_published_returns st _ _ _ Hd Hf Hpub) as Hdel.
  change ("../published" +:+ "/" +:+ f) with ("../published/" +:+ f) in Hdel.
  set (st1 := State _ _ _) in Hdel.
  destruct (write_aggregate_returns st1 g profiles counts stdevs)
    as (st2 & Hwr & _ & Htr); try done.
  { simpl. by rewrite (writable_unlink _ _ _ _ Hpub). }
  exists st1, st2. split_and!; try done.
  - apply unlink_lookup_self.
  - simpl. unfold unlink.
    change ("../published/" +:+ f) with ("../published" +:+ String "/" f).
    rewrite (rsplit_once_no_sep _ _ _ Hsl).
    rewrite lookup_alter_ne by done. by rewrite lookup_delete_ne.
  - unfold delete_then_write. by rewrite (bind_return _ _ _ _ _ Hdel).
  - rewrite Htr. simpl. by rewrite <- app_assoc.
Qed.

(** *** The aggregate of a file without underscore *)

Lemma derive_group_plain_name st f :
  globals st !! "filename" = Some (VStr f) ->
  has_char "_" f = false ->
  derive_group st =
    (inr tt, State (<["group" := VStr f]> (globals st)) (fs st) (trace st)).
Proof.
  intros Hf Hu. destruct (derive_group_returns st f Hf) as (g & Hg & ->).
  rewrite (group_key_of_plain_name f Hu) in Hg. by injection Hg as <-.
Qed.

(** Line 13 then opens the aggregate named as the file. *)
Lemma plain_name_read_path st f :
  globals st !! "filename" = Some (VStr f) ->
  has_char "_" f = false ->
  is_dir (fs st !! ("../aggregate/" +:+ f)) = true \/
  fs st !! ("../aggregate/" +:+ f) = None ->
  exists st',
    (derive_group;; read_aggregate_body) st =
      (inl (IOError ("../aggregate/" +:+ f)), st').
Proof.
  intros Hf Hu Hno.
  rewrite (bind_return _ _ _ _ _ (derive_group_plain_name st f Hf Hu)).
  unfold read_aggregate_body.
  erewrite bind_return; [|apply load_str_bound; simpl; apply lookup_insert_eq].
  eexists. apply bind_raise. unfold open_rb. simpl.
  destruct Hno as [Hd| ->]; [|done].
  by destruct (fs st !! ("../aggregate/" +:+ f)) as [[?|?]|].
Qed.

(** And lines 44-48 write the aggregate named as the file. *)
Lemma plain_name_write_path st f profiles counts stdevs :
  globals st !! "filename" = Some (VStr f) ->
  has_char "_" f = false ->
  globals st !! "aggregateTimeProfiles" = Some (VInts profiles) ->
  globals st !! "aggregateTotalCounts" = Some (VFloats counts) ->
  globals st !! "aggregateTimeStdevs" = Some (VFloats stdevs) ->
  writable ("../aggregate/" +:+ f) (fs st) = true ->
  exists st',
    (derive_group;; write_aggregate) st = (inr tt, st') /\
    fs st' !! ("../aggregate/" +:+ f) =
      Some (File (file_of_rows [pretty <$> profiles;
                                float_repr <$> counts;
                                float_repr <$> stdevs])).
Proof.
  intros Hf Hu Hp Hc Hs Hw.
  rewrite (bind_return _ _ _ _ _ (derive_group_plain_name st f Hf Hu)).
  set (st1 := State _ _ _).
  destruct (write_aggregate_returns st1 f profiles counts stdevs)
    as (st' & Hr & Hfile & _); try done.
  - apply lookup_insert_eq.
  - simpl. by rewrite lookup_insert_ne.
  - simpl. by rewrite lookup_insert_ne.
  - simpl. by rewrite lookup_insert_ne.
  - by exists st'.
Qed.

(** *** The loop *)

Lemma next_row_exhausted name st :
  globals st !! name = Some (VReader []) ->
  next_row name st = (inl StopIteration, st).
Proof.
  intros H. unfold next_row. by rewrite (bind_return _ _ _ _ _ (load_bound _ _ _ H)).
Qed.

(** No statement of the loop catches what the body raises: the first file
    whose processing raises ends the loop, and the files after it are not
    visited. *)
Lemma for_each_raises {A} (body : A -> M unit) x xs e st st' :
  body x st = (inl e, st') -> for_each (x :: xs) body st = (inl e, st').
Proof. intros H. simpl. by apply bind_raise. Qed.

(** *** Lines 26-28 and the rest of the loop *)

(** A comprehension over a row either converts every token, or raises
    [ValueError] at a token that does not convert; it leaves the state
    alone. *)
Lemma py_int_returns x n st : int_of_str x = Some n -> py_int x st = (inr n, st).
Proof. intros H. unfold py_int. by rewrite H. Qed.

Lemma py_int_raises x st : int_of_str x = None -> py_int x st = (inl (ValueError x), st).
Proof. intros H. unfold py_int. by rewrite H. Qed.

Lemma py_float_returns x r st : float_of_str x = Some r -> py_float x st = (inr r, st).
Proof. intros H. unfold py_float. by rewrite H. Qed.

Lemma py_float_raises x st :
  float_of_str x = None -> py_float x st = (inl (ValueError x), st).
Proof. intros H. unfold py_float. by rewrite H. Qed.

Lemma comprehension_int row st :
  (forallb (fun x => bool_decide (is_Some (int_of_str x))) row = true /\
   exists l, comprehension py_int row st = (inr l, st) /\ length l = length row) \/
  (forallb (fun x => bool_decide (is_Some (int_of_str x))) row = false /\
   exists tok, tok ∈ row /\ int_of_str tok = None /\
               comprehension py_int row st = (inl (ValueError tok), st)).
Proof.
  induction row as [|x row IH]; simpl.
  - left. split; [done|]. by exists [].
  - destruct (int_of_str x) as [n|] eqn:E.
    + rewrite bool_decide_eq_true_2 by eauto. simpl.
      destruct IH as [[Hall (l & Hl & Hlen)]|[Hall (tok & Hin & Hnone & Hr)]].
      * left. split; [done|]. exists (n :: l). split; [|by simpl; rewrite Hlen].
        rewrite (bind_return _ _ _ _ _ (py_int_returns _ _ _ E)).
        by rewrite (bind_return _ _ _ _ _ Hl).
      * right. split; [done|]. exists tok. split_and!; [by right|done|].
        rewrite (bind_return _ _ _ _ _ (py_int_returns _ _ _ E)).
        by apply bind_raise.
    + rewrite bool_decide_eq_false_2 by (by intros [? ?]). simpl.
      right. split; [done|]. exists x. split_and!; [by left|done|].
      apply bind_raise. by apply py_int_raises.
Qed.

Lemma comprehension_float row st :
  (forallb (fun x => bool_decide (is_Some (float_of_str x))) row = true /\
   exists l, comprehension py_float row st = (inr l, st) /\ length l = length row) \/
  (forallb (fun x => bool_decide (is_Some (float_of_str x))) row = false /\
   exists tok, tok ∈ row /\ float_of_str tok = None /\
               comprehension py_float row st = (inl (ValueError tok), st)).
Proof.
  induction row as [|x row IH]; simpl.
  - left. split; [done|]. by exists [].
  - destruct (float_of_str x) as [r|] eqn:E.
    + rewrite bool_decide_eq_true_2 by eauto. simpl.
      destruct IH as [[Hall (l & Hl & Hlen)]|[Hall (tok & Hin & Hnone & Hr)]].
      * left. split; [done|]. exists (r :: l). split; [|by simpl; rewrite Hlen].
        rewrite (bind_return _ _ _ _ _ (py_float_returns _ _ _ E)).
        by rewrite (bind_return _ _ _ _ _ Hl).
      * right. split; [done|]. exists tok. split_and!; [by right|done|].
        rewrite (bind_return _ _ _ _ _ (py_float_returns _ _ _ E)).
        by apply bind_raise.
    + rewrite bool_decide_eq_false_2 by (by intros [? ?]). simpl.
      right. split; [done|]. exists x. split_and!; [by left|done|].
      apply bind_raise. by apply py_float_raises.
Qed.

Lemma next_row_returns name row rows st :
  globals st !! name = Some (VReader (row :: rows)) ->
  next_row name st =
    (inr row, State (<[name := VReader rows]> (globals st)) (fs st) (trace st)).
Proof.
  intros H. unfold next_row. by rewrite (bind_return _ _ _ _ _ (load_bound _ _ _ H)).
Qed.

(** What lines 26-28 do with three rows depends on the tokens alone, not
    on how many there are in a row. *)
Lemma parse_published_three_rows st r1 r2 r3 more :
  globals st !! "reader" = Some (VReader (r1 :: r2 :: r3 :: more)) ->
  (non_numeric_rows r1 r2 r3 = true /\
   exists tok st',
     parse_published st = (inl (ValueError tok), st') /\
     (tok ∈ r1 /\ int_of_str tok = None \/
      tok ∈ r2 /\ float_of_str tok = None \/
      tok ∈ r3 /\ float_of_str tok = None) /\
     fs st' = fs st /\ trace st' = trace st) \/
  (non_numeric_rows r1 r2 r3 = false /\
   exists st' profiles counts stdevs,
     parse_published st = (inr tt, st') /\
     globals st' !! "timeProfiles" = Some (VInts profiles) /\
     globals st' !! "totalCounts" = Some (VFloats counts) /\
     globals st' !! "timeStdevs" = Some (VFloats stdevs) /\
     length profiles = length r1 /\
     length counts = length r2 /\
     length stdevs = length r3 /\
     fs st' = fs st /\ trace st' = trace st).
Proof.
  intros Hr. unfold parse_published, non_numeric_rows.
  rewrite (bind_return _ _ _ _ _ (next_row_returns _ _ _ _ Hr)).
  set (st1 := State _ _ _).
  destruct (comprehension_int r1 st1)
    as [[-> (p & Hp & Hlp)]|[-> (tok & Hin & Hnone & Hp)]]; simpl.
  2: { left. split; [done|]. exists tok, st1. split_and!; [by apply bind_raise|by left|done..]. }
  rewrite (bind_return _ _ _ _ _ Hp).
  erewrite bind_return; [|reflexivity].
  erewrite bind_return;
    [|apply next_row_returns; simpl; rewrite lookup_insert_ne by done;
      apply lookup_insert_eq].
  set (st2 := State _ _ _).
  destruct (comprehension_float r2 st2)
    as [[-> (c & Hc & Hlc)]|[-> (tok & Hin & Hnone & Hc)]]; simpl.
  2: { left. split; [done|]. exists tok, st2.
       split_and!; [by apply bind_raise|by right; left|done..]. }
  rewrite (bind_return _ _ _ _ _ Hc).
  erewrite bind_return; [|reflexivity].
  erewrite bind_return;
    [|apply next_row_returns; simpl; rewrite lookup_insert_ne by done;
      apply lookup_insert_eq].
  set (st3 := State _ _ _).
  destruct (comprehension_float r3 st3)
    as [[-> (d & Hd & Hld)]|[-> (tok & Hin & Hnone & Hd)]]; simpl.
  2: { left. split; [done|]. exists tok, st3.
       split_and!; [by apply bind_raise|by right; right|done..]. }
  right. split; [done|]. rewrite (bind_return _ _ _ _ _ Hd).
  eexists _, p, c, d. split; [reflexivity|]. simpl. split_and!; try done.
  - by rewrite !lookup_insert_ne, lookup_insert_eq by done.
  - by rewrite !lookup_insert_ne, lookup_insert_eq by done.
  - apply lookup_insert_eq.
Qed.

(** C4, as the script has it: once lines 26-28 are run on the rows of a
    published file, a token that is not a number raises [ValueError], and
    since nothing in the loop catches it the loop ends there: lines 31-48
    are not run for the file, so it is not deleted and the aggregate is not
    written, and the files after it are not visited.  The number of fields
    of a row is never looked at: three rows of numerals of any lengths are
    taken in as they are. *)
Theorem C4_malformed_rows_end_the_loop st r1 r2 r3 more rest :
  globals st !! "reader" = Some (VReader (r1 :: r2 :: r3 :: more)) ->
  (non_numeric_rows r1 r2 r3 = true ->
   exists tok st',
     (lines_26_to_48;; for_each rest iteration) st = (inl (ValueError tok), st') /\
     (tok ∈ r1 /\ int_of_str tok = None \/
      tok ∈ r2 /\ float_of_str tok = None \/
      tok ∈ r3 /\ float_of_str tok = None) /\
     fs st' = fs st /\ trace st' = trace st) /\
  (non_numeric_rows r1 r2 r3 = false ->
   exists st' profiles counts stdevs,
     parse_published st = (inr tt, st') /\
     globals st' !! "timeProfiles" = Some (VInts profiles) /\
     globals st' !! "totalCounts" = Some (VFloats counts) /\
     globals st' !! "timeStdevs" = Some (VFloats stdevs) /\
     length profiles = length r1 /\
     length counts = length r2 /\
     length stdevs = length r3 /\
     fs st' = fs st /\ trace st' = trace st).
Proof.
  intros Hr.
  destruct (parse_published_three_rows st r1 r2 r3 more Hr)
    as [[Hn (tok & st' & Hp & Htok & Hfs & Htr)]|[Hn Hok]]; split; intros Hn'.
  - exists tok, st'. split; [|done].
    apply bind_raise. unfold lines_26_to_48. by apply bind_raise.
  - congruence.
  - congruence.
  - exact Hok.
Qed.

End General.

(** ** The scenarios of the specification *)

(** C1: merging [4,5] into the aggregate [1,2,3] does not yield [5,7,3].
    Lines 31-33 stop at the name [aggegateTimeProfiles], which nothing
    binds; line 32 on its own raises [IndexError] at the third bucket, the
    published file having two; and the run as a whole has stopped before,
    at line 18. *)
Theorem C1_profiles_not_merged :
  merge_profiles at_line_31 =
    (inl (NameError "aggegateTimeProfiles"), at_line_31) /\
  fst (add_bucket at_line_32) = inl IndexError /\
  fst (run fs_second_publish) = inl (NameError "IOERROR") /\
  fs (snd (run fs_second_publish)) = fs_second_publish.
Proof. split_and!; reflexivity. Qed.

(** C2: with no aggregate for the group, the run does not fall back to
    three empty sequences.  [open] raises [IOError], the [except] clause
    then looks up [IOERROR], and that lookup raises [NameError]: nothing is
    bound to the aggregate's names and the run ends there. *)
Theorem C2_missing_aggregate_ends_run :
  fs_first_publish !! "../aggregate/portA" = None /\
  fst (run fs_first_publish) = inl (NameError "IOERROR") /\
  globals (snd (run fs_first_publish)) !! "aggregateTimeProfiles" = None /\
  globals (snd (run fs_first_publish)) !! "aggregateTotalCounts" = None /\
  globals (snd (run fs_first_publish)) !! "aggregateTimeStdevs" = None /\
  trace (snd (run fs_first_publish)) = [].
Proof. split_and!; reflexivity. Qed.

(** C5: publishing total counts [0.5,0.2] for a group without aggregate
    does not produce the aggregate row [0.2,0.5]: after the run there is no
    aggregate file for the group, and the published file is still there. *)
Theorem C5_counts_not_merged :
  (exists e, fst (run fs_first_publish) = inl e) /\
  fs (snd (run fs_first_publish)) !! "../aggregate/portA" = None /\
  fs (snd (run fs_first_publish)) !! "../published/portA_001" =
    fs_first_publish !! "../published/portA_001".
Proof. split_and!; [by eexists|reflexivity..]. Qed.

(** C6: two files of one group are merged in neither order: whichever the
    listing puts first ends the run, and the file system is left as it
    was. *)
Theorem C6_no_merge_in_either_order :
  fst (run (fs_two_files ["portA_001"; "portA_002"])) = inl (NameError "IOERROR") /\
  fs (snd (run (fs_two_files ["portA_001"; "portA_002"]))) =
    fs_two_files ["portA_001"; "portA_002"] /\
  fst (run (fs_two_files ["portA_002"; "portA_001"])) = inl (NameError "IOERROR") /\
  fs (snd (run (fs_two_files ["portA_002"; "portA_001"]))) =
    fs_two_files ["portA_002"; "portA_001"].
Proof. split_and!; reflexivity. Qed.

(** C9: a published file without underscore in its name is not merged
    into the aggregate of that name.  Line 9 does make the name the group
    key and line 13 does open the aggregate of that name, but the run ends
    at line 18: afterwards there is no such aggregate and the published
    file is still there. *)
Theorem C9_plain_name_not_merged :
  group_key "portA" = inr "portA" /\
  fst (read_aggregate_body at_line_13_plain_name) =
    inl (IOError "../aggregate/portA") /\
  fst (run fs_plain_name) = inl (NameError "IOERROR") /\
  globals (snd (run fs_plain_name)) !! "group" = Some (VStr "portA") /\
  fs (snd (run fs_plain_name)) !! "../aggregate/portA" = None /\
  fs (snd (run fs_plain_name)) !! "../published/portA" =
    fs_plain_name !! "../published/portA".
Proof. split_and!; reflexivity. Qed.

(** C10: a published file of two rows does not fail at [next(reader)].
    Line 25 passes [csv.reader] the keyword [skipInitialspace], which it
    rejects with [TypeError] before any row is read, for two rows as for
    four; and the run has stopped before that, at line 18. *)
Theorem C10_short_file_fails_before_next :
  fst (read_published (at_line_24 two_rows)) = inl (TypeError "skipInitialspace") /\
  fst (read_published (at_line_24 four_rows)) = inl (TypeError "skipInitialspace") /\
  fst (run (fs_with_contents two_rows)) = inl (NameError "IOERROR") /\
  fst (run (fs_with_contents four_rows)) = inl (NameError "IOERROR") /\
  fs (snd (run (fs_with_contents two_rows))) = fs_with_contents two_rows.
Proof. split_and!; reflexivity. Qed.

(** C3 fails on the second scenario: in the effects of lines 40-48 no row
    is written to [portA] before [portA_002] is removed. *)
Lemma C3_counterexample :
  ~ written_before_deleted
      (trace (snd (delete_then_write at_line_40)))
      "../aggregate/portA" "../published/portA_002".
Proof.
  intros (i & j & line & Hi & Hj & Hlt).
  change (trace (snd (delete_then_write at_line_40)))
    with [EvRemove "../published/portA_002";
          EvTruncate "../aggregate/portA";
          EvAppend "../aggregate/portA" (csv_line "," ["5"; "7"; "3"]);
          EvAppend "../aggregate/portA" (csv_line "," ["0.2"; "0.5"; "0.9"]);
          EvAppend "../aggregate/portA" (csv_line "," ["0.05"; "0.1"; "0.3"])] in Hj.
  destruct j as [|j]; [lia|].
  do 4 (destruct j as [|j]; [discriminate|]). discriminate.
Qed.

Lemma C3_witness_second_scenario :
  exists st1 st2,
    delete_published at_line_40 = (inr tt, st1) /\
    fs st1 !! ("../published/" +:+ "portA_002") = None /\
    fs st1 !! ("../aggregate/" +:+ "portA") =
      fs at_line_40 !! ("../aggregate/" +:+ "portA") /\
    write_aggregate st1 = (inr tt, st2) /\
    delete_then_write at_line_40 = (inr tt, st2) /\
    trace st2 =
      (trace at_line_40 ++
       [EvRemove ("../published/" +:+ "portA_002");
        EvTruncate ("../aggregate/" +:+ "portA");
        EvAppend ("../aggregate/" +:+ "portA") (csv_line "," (pretty <$> [5; 7; 3]%Z));
        EvAppend ("../aggregate/" +:+ "portA")
          (csv_line "," (float_repr <$> [dec 2 1; dec 5 1; dec 9 1]));
        EvAppend ("../aggregate/" +:+ "portA")
          (csv_line "," (float_repr <$> [dec 5 2; dec 1 1; dec 3 1]))])%list.
Proof.
  apply (C3_deleted_before_written at_line_40 "portA_002" "portA"
           (three_rows "4,5" "0.9" "0.05")); reflexivity.
Defined.

(** C4 fails on a file with the token [x] in its first row, listed before
    [portB_001]: the [ValueError] of that token ends the loop.  It fails on
    rows of three, one and four fields as well: they are parsed like any
    others, the file is not set aside. *)
Lemma C4_counterexample :
  ~ survives_malformed_rows
      (at_line_26 fs_malformed_first (three_rows "1,x,3" "0.5,0.2" "0.1,0.3"))
      ["portB_001"] /\
  fst (parse_published (at_line_26 fs_malformed_first uneven_rows)) = inr tt.
Proof.
  split; [|reflexivity]. intros H. apply (H "x"). reflexivity.
Qed.

Lemma C4_witness_malformed_and_uneven :
  (exists tok st',
     (lines_26_to_48;; for_each ["portB_001"] iteration)
       (at_line_26 fs_malformed_first (three_rows "1,x,3" "0.5,0.2" "0.1,0.3")) =
       (inl (ValueError tok), st') /\
     (tok ∈ ["1"; "x"; "3"] /\ int_of_str tok = None \/
      tok ∈ ["0.5"; "0.2"] /\ float_of_str tok = None \/
      tok ∈ ["0.1"; "0.3"] /\ float_of_str tok = None) /\
     fs st' = fs_malformed_first /\ trace st' = []) /\
  (exists st' profiles counts stdevs,
     parse_published (at_line_26 fs_malformed_first uneven_rows) = (inr tt, st') /\
     globals st' !! "timeProfiles" = Some (VInts profiles) /\
     globals st' !! "totalCounts" = Some (VFloats counts) /\
     globals st' !! "timeStdevs" = Some (VFloats stdevs) /\
     length profiles = 3 /\ length counts = 1 /\ length stdevs = 4 /\
     fs st' = fs_malformed_first /\ trace st' = []).
Proof.
  split.
  - apply (proj1 (C4_malformed_rows_end_the_loop
                    (at_line_26 fs_malformed_first
                       (three_rows "1,x,3" "0.5,0.2" "0.1,0.3"))
                    ["1"; "x"; "3"] ["0.5"; "0.2"] ["0.1"; "0.3"] []
                    ["portB_001"] eq_refl)).
    reflexivity.
  - apply (proj2 (C4_malformed_rows_end_the_loop
                    (at_line_26 fs_malformed_first uneven_rows)
                    ["1"; "2"; "3"] ["0.5"] ["0.1"; "0.3"; "0.7"; "0.9"] []
                    [] eq_refl)).
    reflexivity.
Defined.

Lemma C8_witness_second_scenario :
  exists st',
    write_aggregate at_line_40 = (inr tt, st') /\
    fs st' !! ("../aggregate/" +:+ "portA") =
      Some (File (file_of_rows [pretty <$> [5; 7; 3]%Z;
                                float_repr <$> [dec 2 1; dec 5 1; dec 9 1];
                                float_repr <$> [dec 5 2; dec 1 1; dec 3 1]])).
Proof.
  apply (C8_aggregate_file_has_three_rows at_line_40 "portA"); reflexivity.
Defined.

(** The file of the witness, spelled out. *)
Example aggregate_file_second_scenario :
  file_of_rows [pretty <$> [5; 7; 3]%Z;
                float_repr <$> [dec 2 1; dec 5 1; dec 9 1];
                float_repr <$> [dec 5 2; dec 1 1; dec 3 1]] =
  "5,7,3" +:+ crlf +:+ "0.2,0.5,0.9" +:+ crlf +:+ "0.05,0.1,0.3" +:+ crlf.
Proof. reflexivity. Qed.

(** Lines 34-38 on the lists of the second scenario. *)
Example concat_and_sort_second_scenario :
  globals (snd (concat_and_sort at_line_31)) !! "aggregateTotalCounts" =
    Some (VFloats [dec 2 1; dec 5 1; dec 9 1]) /\
  globals (snd (concat_and_sort at_line_31)) !! "aggregateTimeStdevs" =
    Some (VFloats [dec 5 2; dec 1 1; dec 3 1]).
Proof. split; reflexivity. Qed.

(** ** Further properties of the script *)

Section Extra.
Context `{L : PyLib}.

Lemma run_without_directory m :
  is_dir (m !! "../published") = false ->
  exists st,
    run m = (inl (OSError "../published"), st) /\ fs st = m /\ trace st = [].
Proof.
  intros Hd. unfold run, script, assign_directory.
  erewrite bind_return; [|reflexivity].
  erewrite bind_return; [|apply load_str_bound; simpl; apply lookup_insert_eq].
  eexists. split.
  - apply bind_raise. unfold os_listdir. simpl.
    by destruct (m !! "../published") as [[?|?]|].
  - done.
Qed.

(** X1: whatever the file system holds, a run leaves it as it found it: no
    file is removed, created or written. *)
Theorem X1_run_changes_nothing m :
  fs (snd (run m)) = m /\ trace (snd (run m)) = [].
Proof.
  destruct (m !! "../published") as [[[|f rest]|d]|] eqn:E.
  - destruct (run_nothing_published m E) as (st & -> & ? & ?). done.
  - destruct (run_raises m f rest E) as (st & -> & ? & ?). done.
  - destruct (run_without_directory m) as (st & -> & ? & ?); [by rewrite E|done].
  - destruct (run_without_directory m) as (st & -> & ? & ?); [by rewrite E|done].
Qed.

(** X2: how a run ends depends on the listing of [../published] alone:
    [OSError] when it is not a directory, a normal end when it is empty,
    [NameError] for [IOERROR] as soon as it has an entry. *)
Theorem X2_run_outcome m :
  fst (run m) =
    match m !! "../published" with
    | Some (Dir []) => inr tt
    | Some (Dir (_ :: _)) => inl (NameError "IOERROR")
    | _ => inl (OSError "../published")
    end.
Proof.
  destruct (m !! "../published") as [[[|f rest]|d]|] eqn:E.
  - by destruct (run_nothing_published m E) as (st & -> & ? & ?).
  - by destruct (run_raises m f rest E) as (st & -> & ? & ?).
  - destruct (run_without_directory m) as (st & -> & ? & ?); [by rewrite E|done].
  - destruct (run_without_directory m) as (st & -> & ? & ?); [by rewrite E|done].
Qed.

(** X3: lines 12-21 raise [NameError] for [IOERROR] whether the aggregate
    file exists or not and whatever it holds; no name but [csvfile] is
    bound or rebound, so the three aggregate lists are never set. *)
Theorem X3_read_aggregate_always_raises st g :
  globals st !! "group" = Some (VStr g) ->
  globals st !! "IOERROR" = None ->
  exists st',
    read_aggregate st = (inl (NameError "IOERROR"), st') /\
    fs st' = fs st /\ trace st' = trace st /\
    forall name, name <> "csvfile" -> globals st' !! name = globals st !! name.
Proof.
  intros Hg Hn.
  assert (exists e st',
    read_aggregate_body st = (inl e, st') /\
    fs st' = fs st /\ trace st' = trace st /\
    forall name, name <> "csvfile" -> globals st' !! name = globals st !! name)
    as (e & st' & Hb & Hfs & Htr & Hgl).
  { unfold read_aggregate_body.
    rewrite (bind_return _ _ _ _ _ (load_str_bound _ _ _ Hg)).
    destruct (fs st !! ("../aggregate/" +:+ g)) as [[es|d]|] eqn:E.
    1,3: exists (IOError ("../aggregate/" +:+ g)), st; split; [|done];
      apply bind_raise; unfold open_rb; by rewrite E.
    exists (TypeError "skipiInitialspace"). eexists. split.
    - erewrite bind_return; [|unfold open_rb; by rewrite E].
      erewrite bind_return; [|reflexivity].
      erewrite bind_return; [|apply load_bound; simpl; apply lookup_insert_eq].
      apply bind_raise. reflexivity.
    - simpl. split_and!; [done..|]. intros name Hne. by rewrite lookup_insert_ne. }
  exists st'. split; [|done].
  apply (try_except_unbound _ _ _ e); [done| |reflexivity].
  by rewrite Hgl.
Qed.

(** X4: lines 24-28 raise before any row is read: [IOError] when the
    published path is not a regular file, [TypeError] for the keyword
    [skipInitialspace] when it is.  No name but [csvfile] is bound. *)
Theorem X4_read_published_never_parses st d f :
  globals st !! "directory" = Some (VStr d) ->
  globals st !! "filename" = Some (VStr f) ->
  exists e st',
    read_published st = (inl e, st') /\
    e = (if fs st !! (d +:+ "/" +:+ f) is Some (File _)
         then TypeError "skipInitialspace" else IOError (d +:+ "/" +:+ f)) /\
    fs st' = fs st /\ trace st' = trace st /\
    forall name, name <> "csvfile" -> globals st' !! name = globals st !! name.
Proof.
  intros Hd Hf. unfold read_published.
  rewrite (bind_return _ _ _ _ _ (load_str_bound _ _ _ Hd)).
  rewrite (bind_return _ _ _ _ _ (load_str_bound _ _ _ Hf)).
  destruct (fs st !! (d +:+ "/" +:+ f)) as [[es|data]|] eqn:E.
  1,3: exists (IOError (d +:+ "/" +:+ f)), st; split; [|done];
    apply bind_raise; unfold open_rb; by rewrite E.
  exists (TypeError "skipInitialspace"). eexists. split.
  - erewrite bind_return; [|unfold open_rb; by rewrite E].
    erewrite bind_return; [|reflexivity].
    erewrite bind_return; [|apply load_bound; simpl; apply lookup_insert_eq].
    apply bind_raise. reflexivity.
  - simpl. split_and!; [done..|]. intros name Hne. by rewrite lookup_insert_ne.
Qed.

Lemma load_nat_bound name n st :
  globals st !! name = Some (VInt n) -> load_nat name st = (inr n, st).
Proof. intros H. unfold load_nat. by rewrite (bind_return _ _ _ _ _ (load_bound _ _ _ H)). Qed.

(** X5: with index [i] in range of both lists, line 32 replaces bucket
    [i] of the aggregate's profiles by its sum with bucket [i] of the
    published profiles and keeps every other bucket and the length. *)
Theorem X5_add_bucket_sums_in_place st agg new i x y :
  globals st !! "aggregateTimeProfiles" = Some (VInts agg) ->
  globals st !! "timeProfiles" = Some (VInts new) ->
  globals st !! "i" = Some (VInt i) ->
  agg !! i = Some x ->
  new !! i = Some y ->
  exists agg',
    add_bucket st =
      (inr tt,
       State (<["aggregateTimeProfiles" := VInts agg']> (globals st)) (fs st) (trace st)) /\
    length agg' = length agg /\
    agg' !! i = Some (x + y)%Z /\
    forall j, j <> i -> agg' !! j = agg !! j.
Proof.
  intros Ha Hn Hi Hx Hy. exists (<[i := (x + y)%Z]> agg). split_and!.
  - unfold add_bucket.
    rewrite (bind_return _ _ _ _ _ (load_ints_bound _ _ _ Ha)).
    rewrite (bind_return _ _ _ _ _ (load_nat_bound _ _ _ Hi)).
    unfold py_index. rewrite Hx.
    erewrite bind_return; [|reflexivity].
    rewrite (bind_return _ _ _ _ _ (load_ints_bound _ _ _ Hn)).
    rewrite (bind_return _ _ _ _ _ (load_nat_bound _ _ _ Hi)).
    rewrite Hy. reflexivity.
  - apply length_insert.
  - apply list_lookup_insert_eq. by apply lookup_lt_Some in Hx.
  - intros j Hj. by apply list_lookup_insert_ne.
Qed.

(** X6: with index [i] in range of the aggregate's profiles but past the
    end of the published ones, line 32 raises [IndexError] and changes
    nothing. *)
Theorem X6_add_bucket_short_file st agg new i :
  globals st !! "aggregateTimeProfiles" = Some (VInts agg) ->
  globals st !! "timeProfiles" = Some (VInts new) ->
  globals st !! "i" = Some (VInt i) ->
  i < length agg ->
  length new <= i ->
  add_bucket st = (inl IndexError, st).
Proof.
  intros Ha Hn Hi Hlt Hge. unfold add_bucket.
  rewrite (bind_return _ _ _ _ _ (load_ints_bound _ _ _ Ha)).
  rewrite (bind_return _ _ _ _ _ (load_nat_bound _ _ _ Hi)).
  destruct (lookup_lt_is_Some_2 agg i Hlt) as [x Hx].
  unfold py_index. rewrite Hx.
  erewrite bind_return; [|reflexivity].
  rewrite (bind_return _ _ _ _ _ (load_ints_bound _ _ _ Hn)).
  rewrite (bind_return _ _ _ _ _ (load_nat_bound _ _ _ Hi)).
  by rewrite (lookup_ge_None_2 new i Hge).
Qed.

Lemma concat_and_sort_frame st ac nc as_ ns :
  globals st !! "aggregateTotalCounts" = Some (VFloats ac) ->
  globals st !! "totalCounts" = Some (VFloats nc) ->
  globals st !! "aggregateTimeStdevs" = Some (VFloats as_) ->
  globals st !! "timeStdevs" = Some (VFloats ns) ->
  concat_and_sort st =
    (inr tt,
     State (<["aggregateTimeStdevs" := VFloats (list_sort (as_ ++ ns))]>
            (<["aggregateTotalCounts" := VFloats (list_sort (ac ++ nc))]>
             (<["aggregateTimeStdevs" := VFloats (as_ ++ ns)]>
              (<["aggregateTotalCounts" := VFloats (ac ++ nc)]> (globals st)))))
           (fs st) (trace st)).
Proof.
  intros H1 H2 H3 H4. unfold concat_and_sort.
  rewrite (bind_return _ _ _ _ _ (load_floats_bound _ _ _ H1)).
  rewrite (bind_return _ _ _ _ _ (load_floats_bound _ _ _ H2)).
  erewrite bind_return; [|reflexivity].
  erewrite bind_return;
    [|apply load_floats_bound; simpl; rewrite lookup_insert_ne by done; exact H3].
  erewrite bind_return;
    [|apply load_floats_bound; simpl; rewrite lookup_insert_ne by done; exact H4].
  erewrite bind_return; [|reflexivity].
  erewrite bind_return;
    [|apply load_floats_bound; simpl; rewrite lookup_insert_ne by done;
      apply lookup_insert_eq].
  erewrite bind_return; [|reflexivity].
  erewrite bind_return;
    [|apply load_floats_bound; simpl; rewrite lookup_insert_ne by done;
      apply lookup_insert_eq].
  reflexivity.
Qed.

(** X7: lines 34-38 lose and invent no value: the new total counts are a
    permutation of the old ones followed by the published ones, likewise
    the deviations; no other name and no file is touched. *)
Theorem X7_concat_and_sort_keeps_every_value st ac nc as_ ns :
  globals st !! "aggregateTotalCounts" = Some (VFloats ac) ->
  globals st !! "totalCounts" = Some (VFloats nc) ->
  globals st !! "aggregateTimeStdevs" = Some (VFloats as_) ->
  globals st !! "timeStdevs" = Some (VFloats ns) ->
  exists st' counts stdevs,
    concat_and_sort st = (inr tt, st') /\
    globals st' !! "aggregateTotalCounts" = Some (VFloats counts) /\
    globals st' !! "aggregateTimeStdevs" = Some (VFloats stdevs) /\
    counts ≡ₚ ac ++ nc /\ stdevs ≡ₚ as_ ++ ns /\
    (forall name, name <> "aggregateTotalCounts" -> name <> "aggregateTimeStdevs" ->
                  globals st' !! name = globals st !! name) /\
    fs st' = fs st /\ trace st' = trace st.
Proof.
  intros H1 H2 H3 H4.
  eexists _, (list_sort (ac ++ nc)), (list_sort (as_ ++ ns)).
  split; [by apply concat_and_sort_frame|]. simpl. split_and!; try done.
  - rewrite lookup_insert_ne by done. apply lookup_insert_eq.
  - apply lookup_insert_eq.
  - apply list_sort_perm.
  - apply list_sort_perm.
  - intros name N1 N2. by rewrite !lookup_insert_ne.
Qed.

Lemma insert_sorted_ascending_on values x l :
  strict_weak_order_on values ->
  x ∈ values -> Forall (fun y => y ∈ values) l ->
  ascending l -> ascending (insert_sorted x l).
Proof.
  intros (Has & Htr & _) Hx. induction l as [|y l IH]; simpl; [by intros _ _; split|].
  intros Hin [Hy Hl]. apply Forall_cons in Hin as [Hyv Hlv].
  destruct (float_lt x y) eqn:E; simpl.
  - split; [|done]. constructor; [by apply Has|].
    rewrite Forall_forall in Hy, Hlv. apply Forall_forall. intros z Hz.
    destruct (float_lt z x) eqn:Ez; [|done].
    rewrite <- (Hy z Hz). symmetry. apply (Htr z x y); auto.
  - split; [|by apply IH].
    rewrite insert_sorted_perm. by constructor.
Qed.

Lemma list_sort_ascending_on l :
  strict_weak_order_on l -> ascending (list_sort l).
Proof.
  intros Hswo. unfold list_sort.
  assert (forall todo acc,
            Forall (fun y => y ∈ l) todo -> Forall (fun y => y ∈ l) acc ->
            ascending acc ->
            ascending (foldl (fun a x => insert_sorted x a) acc todo)) as H.
  { induction todo as [|x todo IH]; intros acc Ht Ha Hasc; simpl; [done|].
    apply Forall_cons in Ht as [Hx Ht]. apply IH; [done| |].
    - rewrite insert_sorted_perm. by constructor.
    - by apply insert_sorted_ascending_on with l. }
  apply H; [|done|done]. by apply Forall_forall.
Qed.

(** X8: when [<] is a strict weak order on the values at hand (no NaN
    among them), lines 34-38 leave both lists ascending: no value is
    smaller than one before it.  This is the case in which [list.sort]
    has one possible result, the one of [list_sort]. *)
Theorem X8_concat_and_sort_ascending st ac nc as_ ns :
  strict_weak_order_on (ac ++ nc) ->
  strict_weak_order_on (as_ ++ ns) ->
  globals st !! "aggregateTotalCounts" = Some (VFloats ac) ->
  globals st !! "totalCounts" = Some (VFloats nc) ->
  globals st !! "aggregateTimeStdevs" = Some (VFloats as_) ->
  globals st !! "timeStdevs" = Some (VFloats ns) ->
  exists st' counts stdevs,
    concat_and_sort st = (inr tt, st') /\
    globals st' !! "aggregateTotalCounts" = Some (VFloats counts) /\
    globals st' !! "aggregateTimeStdevs" = Some (VFloats stdevs) /\
    ascending counts /\ ascending stdevs.
Proof.
  intros Hc Hs H1 H2 H3 H4.
  eexists _, (list_sort (ac ++ nc)), (list_sort (as_ ++ ns)).
  split; [by apply concat_and_sort_frame|]. simpl. split_and!.
  - rewrite lookup_insert_ne by done. apply lookup_insert_eq.
  - apply lookup_insert_eq.
  - by apply list_sort_ascending_on.
  - by apply list_sort_ascending_on.
Qed.
End Extra.

Lemma decimal_lt_asym (a b : Decimal.t) :
  Decimal.lt a b = true -> Decimal.lt b a = false.
Proof. unfold Decimal.lt. intros H%Z.ltb_lt. apply Z.ltb_ge. lia. Qed.

Lemma decimal_lt_trans (a b c : Decimal.t) :
  Decimal.lt a b = true -> Decimal.lt b c = true -> Decimal.lt a c = true.
Proof.
  unfold Decimal.lt. intros H1%Z.ltb_lt H2%Z.ltb_lt. apply Z.ltb_lt.
  destruct a as [ma ka], b as [mb kb], c as [mc kc]. simpl in *.
  assert (0 < 10 ^ Z.of_nat ka)%Z by (apply Z.pow_pos_nonneg; lia).
  assert (0 < 10 ^ Z.of_nat kb)%Z by (apply Z.pow_pos_nonneg; lia).
  assert (0 < 10 ^ Z.of_nat kc)%Z by (apply Z.pow_pos_nonneg; lia).
  set (pa := (10 ^ Z.of_nat ka)%Z) in *.
  set (pb := (10 ^ Z.of_nat kb)%Z) in *.
  set (pc := (10 ^ Z.of_nat kc)%Z) in *.
  apply (Z.mul_lt_mono_pos_r pb); [done|].
  apply Z.lt_trans with (mb * pa * pc)%Z.
  - replace (ma * pc * pb)%Z with ((ma * pb) * pc)%Z by ring.
    by apply Z.mul_lt_mono_pos_r.
  - replace (mb * pa * pc)%Z with ((mb * pc) * pa)%Z by ring.
    replace (mc * pa * pb)%Z with ((mc * pb) * pa)%Z by ring.
    by apply Z.mul_lt_mono_pos_r.
Qed.

Lemma decimal_lt_negtrans (a b c : Decimal.t) :
  Decimal.lt a b = false -> Decimal.lt b c = false -> Decimal.lt a c = false.
Proof.
  unfold Decimal.lt. intros H1%Z.ltb_ge H2%Z.ltb_ge. apply Z.ltb_ge.
  destruct a as [ma ka], b as [mb kb], c as [mc kc]. simpl in *.
  assert (0 < 10 ^ Z.of_nat ka)%Z by (apply Z.pow_pos_nonneg; lia).
  assert (0 < 10 ^ Z.of_nat kb)%Z by (apply Z.pow_pos_nonneg; lia).
  assert (0 < 10 ^ Z.of_nat kc)%Z by (apply Z.pow_pos_nonneg; lia).
  set (pa := (10 ^ Z.of_nat ka)%Z) in *.
  set (pb := (10 ^ Z.of_nat kb)%Z) in *.
  set (pc := (10 ^ Z.of_nat kc)%Z) in *.
  apply (Z.mul_le_mono_pos_r _ _ pb); [done|].
  apply Z.le_trans with (mb * pa * pc)%Z.
  - replace (mc * pa * pb)%Z with ((mc * pb) * pa)%Z by ring.
    replace (mb * pa * pc)%Z with ((mb * pc) * pa)%Z by ring.
    apply Z.mul_le_mono_nonneg_r; lia.
  - replace (ma * pc * pb)%Z with ((ma * pb) * pc)%Z by ring.
    apply Z.mul_le_mono_nonneg_r; lia.
Qed.

Lemma decimal_strict_weak_order (l : list Decimal.t) :
  strict_weak_order_on (L := decimal_lib) l.
Proof.
  split_and!.
  - intros a b _ _. apply decimal_lt_asym.
  - intros a b c _ _ _. apply decimal_lt_trans.
  - intros a b c _ _ _. apply decimal_lt_negtrans.
Qed.

(** X9: line 9 never raises, and the key it yields is the filename cut at
    its last underscore: either the filename is key, underscore and an
    underscore-free suffix, or it has no underscore and is its own key. *)
Theorem X9_group_key_splits_filename filename :
  exists g suffix,
    group_key filename = inr g /\
    has_char "_" suffix = false /\
    (filename = g +:+ "_" +:+ suffix \/ (filename = suffix /\ g = filename)).
Proof.
  unfold group_key, rsplit1.
  destruct (rsplit_once "_" filename) as [[h t]|] eqn:E.
  - apply rsplit_once_spec in E as [-> Ht]. exists h, t. split_and!; [done..|by left].
  - apply rsplit_once_none in E. exists filename, filename. split_and!; [done..|by right].
Qed.

(** X10: a file named group, underscore, suffix, with no underscore in the
    suffix, has that group as key, also when the group contains
    underscores. *)
Theorem X10_group_key_of_group_and_suffix g suffix :
  has_char "_" suffix = false ->
  group_key (g +:+ "_" +:+ suffix) = inr g.
Proof.
  intros Hs. unfold group_key, rsplit1.
  change (g +:+ "_" +:+ suffix) with (g +:+ String "_" suffix).
  by rewrite (rsplit_once_no_sep _ _ _ Hs).
Qed.

Lemma X10_witness_port_A_001 : group_key ("port_A" +:+ "_" +:+ "001") = inr "port_A".
Proof. exact (X10_group_key_of_group_and_suffix "port_A" "001" eq_refl). Defined.

Section Extra2.
Context `{L : PyLib}.

(** X11: when the aggregate cannot be opened for writing, lines 40-48
    end with [IOError] after the published file has been removed: the file
    is gone and nothing was written. *)
Theorem X11_unwritable_aggregate_loses_file st f g data :
  globals st !! "directory" = Some (VStr "../published") ->
  globals st !! "filename" = Some (VStr f) ->
  globals st !! "group" = Some (VStr g) ->
  fs st !! ("../published/" +:+ f) = Some (File data) ->
  writable ("../aggregate/" +:+ g) (fs st) = false ->
  exists st',
    delete_then_write st = (inl (IOError ("../aggregate/" +:+ g)), st') /\
    fs st' !! ("../published/" +:+ f) = None /\
    trace st' = (trace st ++ [EvRemove ("../published/" +:+ f)])%list.
Proof.
  intros Hd Hf Hg Hpub Hw.
  pose proof (delete_published_returns st _ _ _ Hd Hf Hpub) as Hdel.
  change ("../published" +:+ "/" +:+ f) with ("../published/" +:+ f) in Hdel.
  eexists. split.
  - unfold delete_then_write. rewrite (bind_return _ _ _ _ _ Hdel).
    unfold write_aggregate.
    erewrite bind_return; [|by apply load_str_bound].
    apply bind_raise. unfold open_wb. simpl.
    by rewrite (writable_unlink _ _ _ _ Hpub), Hw.
  - simpl. split; [apply unlink_lookup_self|done].
Qed.

(** X12: when the published file is no longer there, line 41 raises
    [OSError] and lines 44-48 are not run: the state is unchanged. *)
Theorem X12_missing_file_stops_before_write st d f :
  globals st !! "directory" = Some (VStr d) ->
  globals st !! "filename" = Some (VStr f) ->
  fs st !! (d +:+ "/" +:+ f) = None ->
  delete_then_write st = (inl (OSError (d +:+ "/" +:+ f)), st).
Proof.
  intros Hd Hf Hn. unfold delete_then_write. apply bind_raise.
  unfold delete_published.
  rewrite (bind_return _ _ _ _ _ (load_str_bound _ _ _ Hd)).
  rewrite (bind_return _ _ _ _ _ (load_str_bound _ _ _ Hf)).
  unfold os_remove. by rewrite Hn.
Qed.

Lemma write_aggregate_frame st g profiles counts stdevs :
  globals st !! "group" = Some (VStr g) ->
  globals st !! "aggregateTimeProfiles" = Some (VInts profiles) ->
  globals st !! "aggregateTotalCounts" = Some (VFloats counts) ->
  globals st !! "aggregateTimeStdevs" = Some (VFloats stdevs) ->
  writable ("../aggregate/" +:+ g) (fs st) = true ->
  exists st',
    write_aggregate st = (inr tt, st') /\
    forall q, q <> "../aggregate/" +:+ g ->
              fs st' !! q = create ("../aggregate/" +:+ g) (fs st) !! q.
Proof.
  intros Hg Hp Hc Hs Hw. unfold write_aggregate.
  rewrite (bind_return _ _ _ _ _ (load_str_bound _ _ _ Hg)).
  erewrite bind_return; [|unfold open_wb; by rewrite Hw].
  erewrite bind_return; [|reflexivity].
  erewrite bind_return; [|apply load_bound; simpl; apply lookup_insert_eq].
  erewrite bind_return; [|reflexivity].
  erewrite bind_return; [|reflexivity].
  erewrite bind_return; [|apply load_bound; simpl; apply lookup_insert_eq].
  erewrite bind_return;
    [|apply load_ints_bound; simpl; rewrite !lookup_insert_ne by done; exact Hp].
  erewrite bind_return;
    [|unfold writerow; simpl; by rewrite create_lookup_self].
  erewrite bind_return; [|apply load_bound; simpl; apply lookup_insert_eq].
  erewrite bind_return;
    [|apply load_floats_bound; simpl; rewrite !lookup_insert_ne by done; exact Hc].
  erewrite bind_return;
    [|unfold writerow; simpl; by rewrite lookup_insert_eq].
  erewrite bind_return; [|apply load_bound; simpl; apply lookup_insert_eq].
  erewrite bind_return;
    [|apply load_floats_bound; simpl; rewrite !lookup_insert_ne by done; exact Hs].
  unfold writerow. simpl. rewrite lookup_insert_eq.
  eexists. split; [reflexivity|]. simpl.
  intros q Hq. by rewrite !lookup_insert_ne.
Qed.

(** X13: lines 40-48 touch the published file, the aggregate and the two
    directories only: every other path keeps its node. *)
Theorem X13_delete_then_write_touches_two_files st f g data profiles counts stdevs :
  globals st !! "directory" = Some (VStr "../published") ->
  globals st !! "filename" = Some (VStr f) ->
  globals st !! "group" = Some (VStr g) ->
  globals st !! "aggregateTimeProfiles" = Some (VInts profiles) ->
  globals st !! "aggregateTotalCounts" = Some (VFloats counts) ->
  globals st !! "aggregateTimeStdevs" = Some (VFloats stdevs) ->
  has_char "/" f = false ->
  has_char "/" g = false ->
  fs st !! ("../published/" +:+ f) = Some (File data) ->
  writable ("../aggregate/" +:+ g) (fs st) = true ->
  exists st',
    delete_then_write st = (inr tt, st') /\
    forall q,
      q <> "../published/" +:+ f -> q <> "../aggregate/" +:+ g ->
      q <> "../published" -> q <> "../aggregate" ->
      fs st' !! q = fs st !! q.
Proof.
  intros Hd Hf Hg Hp Hc Hs Hsf Hsg Hpub Hw.
  pose proof (delete_published_returns st _ _ _ Hd Hf Hpub) as Hdel.
  change ("../published" +:+ "/" +:+ f) with ("../published/" +:+ f) in Hdel.
  set (st1 := State _ _ _) in Hdel.
  destruct (write_aggregate_frame st1 g profiles counts stdevs)
    as (st' & Hwr & Hfr); try done.
  { simpl. by rewrite (writable_unlink _ _ _ _ Hpub). }
  exists st'. split.
  - unfold delete_then_write. by rewrite (bind_return _ _ _ _ _ Hdel).
  - intros q Q1 Q2 Q3 Q4. rewrite (Hfr q Q2). simpl.
    unfold create, unlink.
    change ("../aggregate/" +:+ g) with ("../aggregate" +:+ String "/" g).
    change ("../published/" +:+ f) with ("../published" +:+ String "/" f).
    rewrite (rsplit_once_no_sep _ _ _ Hsg), (rsplit_once_no_sep _ _ _ Hsf).
    rewrite lookup_insert_ne by done.
    rewrite lookup_alter_ne by done.
    rewrite lookup_alter_ne by done.
    by rewrite lookup_delete_ne.
Qed.
End Extra2.

(** *** Instances on the scenarios *)

Lemma X3_witness_second_scenario :
  exists st',
    read_aggregate at_line_31 = (inl (NameError "IOERROR"), st') /\
    fs st' = fs at_line_31 /\ trace st' = trace at_line_31 /\
    forall name, name <> "csvfile" ->
                 globals st' !! name = globals at_line_31 !! name.
Proof.
  apply (X3_read_aggregate_always_raises at_line_31 "portA"); reflexivity.
Defined.

Lemma X4_witness_two_rows :
  exists e st',
    read_published (at_line_24 two_rows) = (inl e, st') /\
    e = (if fs (at_line_24 two_rows) !! ("../published" +:+ "/" +:+ "portA_001")
           is Some (File _)
         then TypeError "skipInitialspace"
         else IOError ("../published" +:+ "/" +:+ "portA_001")) /\
    fs st' = fs (at_line_24 two_rows) /\ trace st' = trace (at_line_24 two_rows) /\
    forall name, name <> "csvfile" ->
                 globals st' !! name = globals (at_line_24 two_rows) !! name.
Proof.
  apply (X4_read_published_never_parses (at_line_24 two_rows)
           "../published" "portA_001"); reflexivity.
Defined.

Lemma X5_witness_second_bucket :
  exists agg',
    add_bucket at_line_32_in_range =
      (inr tt,
       State (<["aggregateTimeProfiles" := VInts agg']> (globals at_line_32_in_range))
             (fs at_line_32_in_range) (trace at_line_32_in_range)) /\
    length agg' = length [1; 2; 3]%Z /\
    agg' !! 1 = Some (2 + 5)%Z /\
    forall j, j <> 1 -> agg' !! j = [1; 2; 3]%Z !! j.
Proof.
  apply (X5_add_bucket_sums_in_place at_line_32_in_range
           [1; 2; 3]%Z [4; 5]%Z 1 2%Z 5%Z); reflexivity.
Defined.

Lemma X6_witness_third_bucket : add_bucket at_line_32 = (inl IndexError, at_line_32).
Proof.
  apply (X6_add_bucket_short_file at_line_32 [1; 2; 3]%Z [4; 5]%Z 2);
    [reflexivity..|simpl; lia|simpl; lia].
Defined.

Lemma X7_witness_second_scenario :
  exists st' counts stdevs,
    concat_and_sort at_line_31 = (inr tt, st') /\
    globals st' !! "aggregateTotalCounts" = Some (VFloats counts) /\
    globals st' !! "aggregateTimeStdevs" = Some (VFloats stdevs) /\
    counts ≡ₚ [dec 2 1; dec 5 1] ++ [dec 9 1] /\
    stdevs ≡ₚ [dec 1 1; dec 3 1] ++ [dec 5 2] /\
    (forall name, name <> "aggregateTotalCounts" -> name <> "aggregateTimeStdevs" ->
                  globals st' !! name = globals at_line_31 !! name) /\
    fs st' = fs at_line_31 /\ trace st' = trace at_line_31.
Proof.
  apply (X7_concat_and_sort_keeps_every_value at_line_31); reflexivity.
Defined.

Lemma X8_witness_second_scenario :
  exists st' counts stdevs,
    concat_and_sort at_line_31 = (inr tt, st') /\
    globals st' !! "aggregateTotalCounts" = Some (VFloats counts) /\
    globals st' !! "aggregateTimeStdevs" = Some (VFloats stdevs) /\
    ascending counts /\ ascending stdevs.
Proof.
  apply (X8_concat_and_sort_ascending at_line_31
           [dec 2 1; dec 5 1] [dec 9 1] [dec 1 1; dec 3 1] [dec 5 2]
           (decimal_strict_weak_order _) (decimal_strict_weak_order _));
    reflexivity.
Defined.

Lemma X11_witness_no_aggregate_dir :
  exists st',
    delete_then_write (State globals_merged fs_no_aggregate_dir []) =
      (inl (IOError ("../aggregate/" +:+ "portA")), st') /\
    fs st' !! ("../published/" +:+ "portA_002") = None /\
    trace st' = ([] ++ [EvRemove ("../published/" +:+ "portA_002")])%list.
Proof.
  apply (X11_unwritable_aggregate_loses_file
           (State globals_merged fs_no_aggregate_dir []) "portA_002" "portA"
           (three_rows "4,5" "0.9" "0.05")); reflexivity.
Defined.

Lemma X12_witness_file_gone :
  delete_then_write (State globals_merged fs_first_publish []) =
    (inl (OSError ("../published" +:+ "/" +:+ "portA_002")),
     State globals_merged fs_first_publish []).
Proof.
  apply (X12_missing_file_stops_before_write
           (State globals_merged fs_first_publish []) "../published" "portA_002");
    reflexivity.
Defined.

Lemma X13_witness_second_scenario :
  exists st',
    delete_then_write at_line_40 = (inr tt, st') /\
    forall q,
      q <> "../published/" +:+ "portA_002" -> q <> "../aggregate/" +:+ "portA" ->
      q <> "../published" -> q <> "../aggregate" ->
      fs st' !! q = fs at_line_40 !! q.
Proof.
  apply (X13_delete_then_write_touches_two_files at_line_40 "portA_002" "portA"
           (three_rows "4,5" "0.9" "0.05") [5; 7; 3]%Z
           [dec 2 1; dec 5 1; dec 9 1] [dec 5 2; dec 1 1; dec 3 1]); reflexivity.
Defined.
